(** * generic_parser: extraction of incident records from CAD messages

    A shallow embedding of [generic_parser_copy.py] and the properties of
    its field extractors and of [parse_data].

    Conventions of the model.
    - A message is a Python [str], modelled as a [string] whose characters
      are code points below 256.
    - The patterns are the ones written in the source, run by a
      backtracking matcher with Python's [re] semantics: alternatives are
      tried in Python's order (a greedy repetition first takes as much as
      it can and gives characters back one at a time) and [re.search]
      returns the match at the leftmost starting position.  The inline
      [(?s)] that the source writes in the middle of four patterns is the
      global DOTALL flag (accepted there by the interpreters this script
      was written for); every search also passes [re.DOTALL].
    - Exceptions, the [errors.log] sink and the wall clock are explicit:
      a computation is a function from a [world] to an outcome and a new
      [world].  The log file can be opened and written; configuring the
      logger has no other effect and is left out. *)

From Stdlib Require Import Ascii String List Arith Lia Bool.
From stdpp Require Import base option gmap strings list fin_maps.

Local Open Scope string_scope.
Local Open Scope nat_scope.

(** ** Characters and Python string methods *)

Module Py.

Definition code (c : ascii) : nat := nat_of_ascii c.

(** [str.isspace] on one character, which is also what [\s] matches in a
    [str] pattern: TAB, LF, VT, FF, CR, the separators 0x1C-0x1F, SPACE,
    NEL (0x85) and NBSP (0xA0). *)
Definition isspace (c : ascii) : bool :=
  let n := code c in
  ((9 <=? n) && (n <=? 13)) || ((28 <=? n) && (n <=? 32))
  || (n =? 133) || (n =? 160).

(** [\d] on code points below 256. *)
Definition isdigit (c : ascii) : bool :=
  let n := code c in (48 <=? n) && (n <=? 57).

(** [[A-Z]] *)
Definition isupper_AZ (c : ascii) : bool :=
  let n := code c in (65 <=? n) && (n <=? 90).

(** [.] under DOTALL *)
Definition anychar (_ : ascii) : bool := true.

Definition is_char (a : ascii) (c : ascii) : bool :=
  if ascii_dec a c then true else false.

(** [s.lstrip()] *)
Fixpoint lstrip (s : string) : string :=
  match s with
  | String c s' => if isspace c then lstrip s' else s
  | EmptyString => EmptyString
  end.

(** [s.rstrip()] *)
Fixpoint rstrip (s : string) : string :=
  match s with
  | String c s' =>
      match rstrip s' with
      | EmptyString => if isspace c then EmptyString else String c EmptyString
      | r => String c r
      end
  | EmptyString => EmptyString
  end.

(** [s.strip()] *)
Definition strip (s : string) : string := rstrip (lstrip s).

(** [s.replace(a, b)] for a one-character [a] *)
Fixpoint replace_char (a : ascii) (b : string) (s : string) : string :=
  match s with
  | String c s' =>
      if ascii_dec c a then b ++ replace_char a b s'
      else String c (replace_char a b s')
  | EmptyString => EmptyString
  end.

(** [s.split(", ")]: the pieces between the successive, non-overlapping
    occurrences of the separator, scanned from the left; [cur] is the
    piece being read. *)
Fixpoint split_comma_space_from (cur : string) (s : string) : list string :=
  match s with
  | String "," (String " " rest) => cur :: split_comma_space_from "" rest
  | String c rest => split_comma_space_from (cur ++ String c "") rest
  | EmptyString => [cur]
  end.

Definition split_comma_space (s : string) : list string :=
  split_comma_space_from "" s.

(** [s[:n]] *)
Fixpoint take (n : nat) (s : string) : string :=
  match n, s with
  | S n', String c s' => String c (take n' s')
  | _, _ => EmptyString
  end.

(** [s.startswith(p)], returning what follows the prefix *)
Fixpoint strip_prefix (p s : string) : option string :=
  match p, s with
  | EmptyString, _ => Some s
  | String a p', String c s' =>
      if ascii_dec a c then strip_prefix p' s' else None
  | String _ _, EmptyString => None
  end.

(** Truth value of a [str]-or-[None] in a condition. *)
Definition truthy (v : option string) : bool :=
  match v with
  | Some EmptyString => false
  | Some _ => true
  | None => false
  end.

End Py.

(** ** The pattern language of the source and its matcher *)

Module Re.

(** The constructs that the five patterns of the source use.  Repetition
    is only ever applied to a single character class. *)
Inductive regex : Type :=
  | Lit (s : string)                       (* literal text *)
  | Class (p : ascii -> bool)              (* one character of a class *)
  | Star (p : ascii -> bool)               (* greedy  p*  *)
  | Plus (p : ascii -> bool)               (* greedy  p+  *)
  | Seq (r1 r2 : regex)
  | Named (name : string) (r : regex)      (* (?P<name>...) *)
  | Paren (r : regex)                      (* (...), numbered group *)
  | Look (r : regex).                      (* (?=...) *)

(** The named groups of a match in progress ([groupdict()]) are a
    [gmap string string]. *)

Section matcher.
Context {A : Type}.

(** Greedy repetition: take one more character when the class allows
    it, and fall back to stopping here when the rest of the pattern
    then fails. *)
Fixpoint star (p : ascii -> bool) (s : string)
    (k : string -> option A) : option A :=
  match s with
  | String c s' =>
      if p c then
        match star p s' k with
        | Some r => Some r
        | None => k s
        end
      else k s
  | EmptyString => k s
  end.

Definition plus (p : ascii -> bool) (s : string)
    (k : string -> option A) : option A :=
  match s with
  | String c s' => if p c then star p s' k else None
  | EmptyString => None
  end.
End matcher.

(** [run r s g k]: match [r] at the start of [s] with the groups [g] set
    so far, then continue with [k] on what is left; [None] when every
    alternative fails. *)
Fixpoint run {A : Type} (r : regex) (s : string) (g : gmap string string)
    (k : string -> gmap string string -> option A) : option A :=
  match r with
  | Lit l =>
      match Py.strip_prefix l s with
      | Some s' => k s' g
      | None => None
      end
  | Class p =>
      match s with
      | String c s' => if p c then k s' g else None
      | EmptyString => None
      end
  | Star p => star p s (fun s' => k s' g)
  | Plus p => plus p s (fun s' => k s' g)
  | Seq r1 r2 => run r1 s g (fun s' g' => run r2 s' g' k)
  | Named name r' =>
      run r' s g (fun s' g' =>
        k s' (<[name := Py.take (String.length s - String.length s') s]> g'))
  | Paren r' => run r' s g k
  | Look r' =>
      match run r' s g (fun _ g' => Some g') with
      | Some g' => k s g'
      | None => None
      end
  end.

(** A match anchored at the start of [s]: what follows the match, and
    the named groups. *)
Definition match_at (r : regex) (s : string)
    : option (string * gmap string string) :=
  run r s ∅ (fun s' g => Some (s', g)).

(** [re.search(r, s, re.DOTALL)]: the match at the leftmost position
    that has one. *)
Fixpoint search (r : regex) (s : string)
    : option (string * gmap string string) :=
  match match_at r s with
  | Some m => Some m
  | None =>
      match s with
      | String _ s' => search r s'
      | EmptyString => None
      end
  end.

(** [re.sub(r, repl, s)] for a replacement without group references.
    After a match of [n] characters the scan resumes behind it: [skip]
    counts the characters of the match still to be passed over.  (An
    empty match inserts [repl] and copies the next character; the one
    pattern the source substitutes matches no empty string.) *)
Fixpoint sub_from (r : regex) (repl : string) (skip : nat) (s : string)
    : string :=
  match s with
  | EmptyString => EmptyString
  | String c s' =>
      match skip with
      | S n => sub_from r repl n s'
      | O =>
          match match_at r s with
          | Some (rest, _) =>
              match String.length s - String.length rest with
              | O => repl ++ String c (sub_from r repl 0 s')
              | S n => repl ++ sub_from r repl n s'
              end
          | None => String c (sub_from r repl 0 s')
          end
      end
  end.

Definition sub (r : regex) (repl : string) (s : string) : string :=
  sub_from r repl 0 s.

End Re.

(** ** Exceptions, the error log and the wall clock *)

(** [datetime.datetime] *)
Record datetime : Type := mk_datetime {
  year : nat; month : nat; day : nat;
  hour : nat; minute : nat; second : nat;
  microsecond : nat
}.

(** The exceptions that the modelled code can meet. *)
Inductive exn : Type :=
  | ParsingError (timestamp parsing_property data parsing_error : string)
  | AttributeError          (* a method called on [None] *)
  | ClockError.             (* [today()] or [strftime] failed *)

(** What the program can observe and change outside its own variables:
    the records appended to [errors.log], and the wall clock, given as
    the reading that the n-th call of [datetime.datetime.today()] gets
    ([None]: the call, or formatting its result, raises). *)
Record world : Type := mk_world {
  errors_log : list exn;
  clock : nat -> option datetime;
  ticks : nat
}.

Inductive outcome (A : Type) : Type :=
  | Returned (a : A)
  | Raised (e : exn).
Arguments Returned {A} a.
Arguments Raised {A} e.

Definition Python (A : Type) : Type := world -> outcome A * world.

Definition ret {A : Type} (a : A) : Python A := fun w => (Returned a, w).

Definition raise {A : Type} (e : exn) : Python A := fun w => (Raised e, w).

Definition bind {A B : Type} (m : Python A) (k : A -> Python B) : Python B :=
  fun w =>
    match m w with
    | (Returned a, w') => k a w'
    | (Raised e, w') => (Raised e, w')
    end.

Notation "x <- m ;; k" := (bind m (fun x => k))
  (at level 100, m at next level, right associativity).

(** [try: body  except Exception as err: handler(err)] *)
Definition try_except {A : Type} (body : Python A) (handler : exn -> Python A)
    : Python A :=
  fun w =>
    match body w with
    | (Returned a, w') => (Returned a, w')
    | (Raised e, w') => handler e w'
    end.

(** [logging.exception(err)] with the root logger writing [errors.log] *)
Definition logging_exception (err : exn) : Python unit :=
  fun w => (Returned tt,
            mk_world (errors_log w ++ [err])%list (clock w) (ticks w)).

(** *** Formatting and reading timestamps *)

Definition digit (n : nat) : ascii := ascii_of_nat (48 + n).

Definition fmt2 (n : nat) : string :=
  String (digit (n / 10 mod 10)) (String (digit (n mod 10)) "").

(** [%Y] for the four-digit years of a present-day clock *)
Definition fmt4 (n : nat) : string :=
  String (digit (n / 1000 mod 10)) (String (digit (n / 100 mod 10))
    (fmt2 n)).

(** [dt.strftime("%Y-%m-%d %H:%M:%S")] *)
Definition strftime (dt : datetime) : string :=
  fmt4 (year dt) ++ "-" ++ fmt2 (month dt) ++ "-" ++ fmt2 (day dt) ++ " "
  ++ fmt2 (hour dt) ++ ":" ++ fmt2 (minute dt) ++ ":" ++ fmt2 (second dt).

(** [datetime.datetime.today().strftime('%Y-%m-%d %H:%M:%S')] *)
Definition today_strftime : Python string :=
  fun w =>
    let w' := mk_world (errors_log w) (clock w) (S (ticks w)) in
    match clock w (ticks w) with
    | Some dt => (Returned (strftime dt), w')
    | None => (Raised ClockError, w')
    end.

(** [raise ParsingError(parsing_property, data, parsing_error=...)]: the
    constructor stamps the exception with the current time. *)
Definition raise_ParsingError {A : Type}
    (parsing_property data parsing_error : string) : Python A :=
  timestamp <- today_strftime ;;
  raise (ParsingError timestamp parsing_property data parsing_error).

(** [v.strip()] where [v] may be [None] *)
Definition method_strip (v : option string) : Python string :=
  match v with
  | Some s => ret (Py.strip s)
  | None => raise AttributeError
  end.

(** ** The extractors *)

Import Re.

Infix ">>" := Seq (at level 60, right associativity).

(** [r"Call Type (?P<call_type>[A-Z]+\s+\((?s).*\))"] *)
Definition call_type_pattern : regex :=
  Lit "Call Type " >>
  Named "call_type"
    (Plus Py.isupper_AZ >> Plus Py.isspace >> Lit "(" >>
     Star Py.anychar >> Lit ")").

(** [r"\s+\)"] *)
Definition space_paren_pattern : regex := Plus Py.isspace >> Lit ")".

(** [r"Incident No (?P<number>\d+)"] *)
Definition number_pattern : regex :=
  Lit "Incident No " >> Named "number" (Plus Py.isdigit).

(** [r"Loc (?P<location>(?s).*(?=City))"] *)
Definition location_pattern : regex :=
  Lit "Loc " >> Named "location" (Star Py.anychar >> Look (Lit "City")).

(** [r"Units(?P<equipment>(\s(?s).*(?=\*\*\*\sPremise)))"] *)
Definition equipment_pattern : regex :=
  Lit "Units" >>
  Named "equipment"
    (Paren (Class Py.isspace >> Star Py.anychar >>
            Look (Lit "***" >> Class Py.isspace >> Lit "Premise"))).

(** [r"Remarks (?P<remarks>(?s).*(?=Prty))"] *)
Definition remarks_pattern : regex :=
  Lit "Remarks " >> Named "remarks" (Star Py.anychar >> Look (Lit "Prty")).

(** The handler shared by the four guarded extractors:
    [except Exception as err: logging.exception(err)], after which the
    function ends without a [return], that is, returns [None]. *)
Definition log_and_return_None {A : Type} (err : exn) : Python (option A) :=
  _ <- logging_exception err ;; ret None.

Definition call_type_custom_function (data : string) : Python (option string) :=
  try_except
    (match search call_type_pattern data with
     | Some (_, groupdict) =>
         result <- method_strip (groupdict !! "call_type") ;;
         let result := sub space_paren_pattern ")" result in
         ret (Some result)
     | None => raise_ParsingError "call_type" data "Insufficient regex"
     end)
    log_and_return_None.

Definition incident_number_custom_function (data : string)
    : Python (option string) :=
  try_except
    (match search number_pattern data with
     | Some (_, groupdict) =>
         result <- method_strip (groupdict !! "number") ;;
         ret (Some result)
     | None => raise_ParsingError "number" data "Insufficient regex"
     end)
    log_and_return_None.

Definition coordinates_custom_function (query : string) : string :=
  "39.6029,-77.0015".

Definition location_custom_function (data : string)
    : Python (option (string * string)) :=
  try_except
    (match search location_pattern data with
     | Some (_, groupdict) =>
         result <- method_strip (groupdict !! "location") ;;
         let query := "1100 Business Parkway S, Westminster, MD 21157" in
         let coordinates := coordinates_custom_function query in
         ret (Some (result, coordinates))
     | None => raise_ParsingError "location" data "Insufficient regex"
     end)
    log_and_return_None.

Definition equipment_custom_function (data : string)
    : Python (option (list string)) :=
  try_except
    (match search equipment_pattern data with
     | Some (_, groupdict) =>
         result <- method_strip (groupdict !! "equipment") ;;
         let result := Py.split_comma_space result in
         let result :=
           if decide (result = [""]) then [] else result in
         ret (Some result)
     | None => raise_ParsingError "equipment" data "Insufficient regex"
     end)
    log_and_return_None.

Definition time_custom_function (data : string) : Python string :=
  try_except
    (result <- today_strftime ;; ret result)
    (fun err => raise_ParsingError "time" data "Not specified").

(** No [try] here: an exception inside would reach the caller. *)
Definition remarks_custom_function (data : string) : Python (option string) :=
  match search remarks_pattern data with
  | Some (_, groupdict) =>
      result <- method_strip (groupdict !! "remarks") ;;
      let result := Py.replace_char "010" " " result in
      ret (Some result)
  | None => ret None
  end.

(** ** Records and the batch driver *)

(** The values stored in a record. *)
Inductive value : Type :=
  | VNone
  | VStr (s : string)
  | VList (l : list string).

Definition of_str (v : option string) : value :=
  match v with Some s => VStr s | None => VNone end.

Definition of_list (v : option (list string)) : value :=
  match v with Some l => VList l | None => VNone end.

Definition is_not_None {A : Type} (v : option A) : bool :=
  match v with Some _ => true | None => false end.

(** One turn of the loop of [parse_data]: the body run on [msg] with the
    list [dict_list] built so far; it returns the list as the body
    leaves it. *)
Definition parse_data_body (msg : string) (dict_list : list (gmap string value))
    : Python (list (gmap string value)) :=
  let formatted_dict : gmap string value := ∅ in
  number <- incident_number_custom_function msg ;;
  let formatted_dict := <["number" := of_str number]> formatted_dict in
  call_type <- call_type_custom_function msg ;;
  let formatted_dict := <["call_type" := of_str call_type]> formatted_dict in
  location_tuple <- location_custom_function msg ;;
  let '(formatted_dict, location) :=
    match location_tuple with
    | Some (location, coordinates) =>
        (<["coordinates" := VStr coordinates]>
           (<["location" := VStr location]> formatted_dict),
         Some location)
    | None => (formatted_dict, None)
    end in
  equipment <- equipment_custom_function msg ;;
  let formatted_dict := <["equipment" := of_list equipment]> formatted_dict in
  remarks <- remarks_custom_function msg ;;
  let remarks := match remarks with Some r => r | None => "None" end in
  let formatted_dict := <["remarks" := VStr remarks]> formatted_dict in
  time <- time_custom_function msg ;;
  let formatted_dict := <["time" := VStr time]> formatted_dict in
  if Py.truthy number && Py.truthy location && Py.truthy call_type
     && is_not_None equipment
  then ret (dict_list ++ [formatted_dict])%list
  else ret dict_list.

Fixpoint parse_data_loop (data : list string)
    (dict_list : list (gmap string value))
    : Python (list (gmap string value)) :=
  match data with
  | [] => ret dict_list
  | msg :: rest =>
      dict_list' <- parse_data_body msg dict_list ;;
      parse_data_loop rest dict_list'
  end.

Definition parse_data (data : list string)
    : Python (list (gmap string value)) :=
  parse_data_loop data [].

(** ** A sample message and a sample world *)

Definition nl : string := String "010" "".

Definition sample_message : string :=
  "Call Type AB (MEDICAL)" ++ nl ++ "Incident No 12345" ++ nl
  ++ "Loc 123 Main St" ++ nl ++ "City Anywhere" ++ nl
  ++ "Units E10, A12 *** Premise" ++ nl
  ++ "Remarks patient breathing Prty 1".

Definition sample_datetime : datetime :=
  mk_datetime 2019 7 4 13 5 9 250.

Definition sample_world : world :=
  mk_world [] (fun _ => Some sample_datetime) 0.


(** ** Definitions used to state the properties *)

(** Every character of [s] is in the class [p]. *)
Fixpoint all_chars (p : ascii → bool) (s : string) : bool :=
  match s with
  | String c s' => p c && all_chars p s'
  | EmptyString => true
  end.

(** [needle in s] *)
Definition occurs (needle s : string) : Prop :=
  ∃ a b, s = a ++ needle ++ b.

(** The shape of the location and remarks patterns: [l(?P<n>.*(?=m))]. *)
Definition span_pattern (l n m : string) : regex :=
  Lit l >> Named n (Star Py.anychar >> Look (Lit m)).

(** What is left of such a pattern once [l] has been read, [t] follows
    it and [.*] has stopped in front of [t']. *)
Definition span_tail (n m t t' : string)
    : option (string * gmap string string) :=
  match Py.strip_prefix m t' with
  | Some _ =>
      Some (t', <[n := Py.take (String.length t - String.length t') t]> ∅)
  | None => None
  end.

(** The shape of the equipment pattern: [l(?P<n>(\s.*(?=m1\sm2)))]. *)
Definition units_pattern (l n m1 m2 : string) : regex :=
  Lit l >>
  Named n
    (Paren (Class Py.isspace >> Star Py.anychar >>
            Look (Lit m1 >> Class Py.isspace >> Lit m2))).

(** [m1], a whitespace character and [m2] stand at the start of [s]. *)
Definition marker_ahead (m1 m2 s : string) : bool :=
  match Py.strip_prefix m1 s with
  | Some (String d u) =>
      Py.isspace d && is_not_None (Py.strip_prefix m2 u)
  | _ => false
  end.

(** The shape shared by the four guarded extractors: search, strip the
    named group, post-process with [f]; log and return [None] on any
    exception. *)
Definition guarded_extractor {A : Type} (r : regex)
    (name parsing_property : string) (f : string → A) (data : string)
    : Python (option A) :=
  try_except
    (match search r data with
     | Some (_, groupdict) =>
         result <- method_strip (groupdict !! name) ;;
         ret (Some (f result))
     | None => raise_ParsingError parsing_property data "Insufficient regex"
     end)
    log_and_return_None.

(** The text of the group [name] in the first match of [r], if any. *)
Definition group_of (r : regex) (name data : string) : option string :=
  match search r data with
  | Some (_, groupdict) => groupdict !! name
  | None => None
  end.

(** The values that the extractors return on [data], as functions of the
    message alone (lemmas [*_returns] below relate them to the code). *)
Definition number_value (data : string) : option string :=
  Py.strip <$> group_of number_pattern "number" data.

Definition call_type_value (data : string) : option string :=
  (λ g, sub space_paren_pattern ")" (Py.strip g))
    <$> group_of call_type_pattern "call_type" data.

Definition location_value (data : string) : option (string * string) :=
  (λ g, (Py.strip g,
         coordinates_custom_function
           "1100 Business Parkway S, Westminster, MD 21157"))
    <$> group_of location_pattern "location" data.

Definition equipment_post (stripped : string) : list string :=
  let result := Py.split_comma_space stripped in
  if decide (result = [""]) then [] else result.

Definition equipment_value (data : string) : option (list string) :=
  (λ g, equipment_post (Py.strip g))
    <$> group_of equipment_pattern "equipment" data.

Definition remarks_value (data : string) : option string :=
  (λ g, Py.replace_char "010" " " (Py.strip g))
    <$> group_of remarks_pattern "remarks" data.

(** The condition of the final [if] of the loop body. *)
Definition complete (msg : string) : bool :=
  Py.truthy (number_value msg) && Py.truthy (fst <$> location_value msg)
  && Py.truthy (call_type_value msg) && is_not_None (equipment_value msg).

(** [formatted_dict] at the end of the loop body, when the clock read
    [time]. *)
Definition formatted_dict_of (msg time : string) : gmap string value :=
  let d0 : gmap string value :=
    <["call_type" := of_str (call_type_value msg)]>
      (<["number" := of_str (number_value msg)]> ∅) in
  let d1 :=
    match location_value msg with
    | Some (location, coordinates) =>
        <["coordinates" := VStr coordinates]>
          (<["location" := VStr location]> d0)
    | None => d0
    end in
  <["time" := VStr time]>
    (<["remarks" := VStr (default "None" (remarks_value msg))]>
       (<["equipment" := of_list (equipment_value msg)]> d1)).

(** What one turn of the loop appends. *)
Definition records_of (msg time : string) : list (gmap string value) :=
  if complete msg then [formatted_dict_of msg time] else [].

(** The effect of a guarded extractor on the world: the clock is the
    same, a success leaves no trace and a failure is one more entry of
    the log. *)
Definition guarded_effect {A : Type} (v : option A) (w w' : world) : Prop :=
  clock w' = clock w ∧
  match v with
  | Some _ => w' = w
  | None => ∃ e, errors_log w' = (errors_log w ++ [e])%list
  end.

(** The key set of a full record. *)
Definition record_keys : gset string :=
  {[ "number"; "call_type"; "location"; "coordinates"; "equipment";
     "remarks"; "time" ]}.

(** Equality of two records in every field but [time]. *)
Definition eq_except_time (r1 r2 : gmap string value) : Prop :=
  ∀ key, key ≠ "time" → r1 !! key = r2 !! key.

(** A clock that never fails. *)
Definition clock_works (w : world) : Prop :=
  ∀ n, is_Some (clock w n).

(** The world after one reading of the clock. *)
Definition tick (w : world) : world :=
  mk_world (errors_log w) (clock w) (S (ticks w)).

(** [m] returns [v], without raising, in whatever world it runs. *)
Definition returns {A : Type} (m : Python A) (v : A) : Prop :=
  ∀ w, ∃ w', m w = (Returned v, w').

(** A record with all seven fields. *)
Definition full_record (number call_type location coordinates : string)
    (equipment : list string) (remarks time : string) : gmap string value :=
  <["time" := VStr time]>
  (<["remarks" := VStr remarks]>
  (<["equipment" := VList equipment]>
  (<["coordinates" := VStr coordinates]>
  (<["location" := VStr location]>
  (<["call_type" := VStr call_type]>
  (<["number" := VStr number]> ∅)))))).

(** The record of [sample_message] when the clock read [time]. *)
Definition sample_record (time : string) : gmap string value :=
  full_record "12345" "AB (MEDICAL)" "123 Main St" "39.6029,-77.0015"
    ["E10"; "A12"] "patient breathing" time.

(** A world to run an extractor in when only its value matters. *)
Definition still_world : world := mk_world [] (λ _, None) 0.

(** The four required fields of [msg] are extracted and pass the final
    test of the loop body. *)
Definition required_fields_present (msg : string) : Prop :=
  ∃ n c l co e,
    returns (incident_number_custom_function msg) (Some n) ∧
    returns (call_type_custom_function msg) (Some c) ∧
    returns (location_custom_function msg) (Some (l, co)) ∧ l ≠ "" ∧
    returns (equipment_custom_function msg) (Some e).

(** *** Reading a timestamp back

    [datetime.datetime.strptime(s, "%Y-%m-%d %H:%M:%S")], restricted to
    the fixed-width texts that [strftime] writes: four, two, two, two,
    two and two digits with their separators, each field in its range. *)

Definition digit_value (c : ascii) : option nat :=
  if Py.isdigit c then Some (Py.code c - 48) else None.

Definition number2 (c1 c2 : ascii) : option nat :=
  match digit_value c1, digit_value c2 with
  | Some d1, Some d2 => Some (10 * d1 + d2)
  | _, _ => None
  end.

Definition number4 (c1 c2 c3 c4 : ascii) : option nat :=
  match number2 c1 c2, number2 c3 c4 with
  | Some hi, Some lo => Some (100 * hi + lo)
  | _, _ => None
  end.

Definition is_leap (y : nat) : bool :=
  ((y mod 4 =? 0) && negb (y mod 100 =? 0)) || (y mod 400 =? 0).

Definition days_in_month (y m : nat) : nat :=
  match m with
  | 2 => if is_leap y then 29 else 28
  | 4 | 6 | 9 | 11 => 30
  | _ => 31
  end.

(** The printed fields are in the ranges of a [datetime] whose year has
    four digits. *)
Definition in_range (y mo d h mi s : nat) : bool :=
  (1000 <=? y) && (y <? 10 * 1000) && (1 <=? mo) && (mo <=? 12)
  && (1 <=? d) && (d <=? days_in_month y mo)
  && (h <? 24) && (mi <? 60) && (s <? 60).

Definition well_formed (dt : datetime) : bool :=
  in_range (year dt) (month dt) (day dt) (hour dt) (minute dt) (second dt).

Definition strptime (s : string) : option datetime :=
  match list_ascii_of_string s with
  | [y1; y2; y3; y4; s1; m1; m2; s2; d1; d2; s3;
     h1; h2; s4; mi1; mi2; s5; se1; se2] =>
      if Py.is_char "-" s1 && Py.is_char "-" s2 && Py.is_char " " s3
         && Py.is_char ":" s4 && Py.is_char ":" s5
      then
        match number4 y1 y2 y3 y4, number2 m1 m2, number2 d1 d2,
              number2 h1 h2, number2 mi1 mi2, number2 se1 se2 with
        | Some y, Some mo, Some d, Some h, Some mi, Some se =>
            if in_range y mo d h mi se
            then Some (mk_datetime y mo d h mi se 0)
            else None
        | _, _, _, _, _, _ => None
        end
      else None
  | _ => None
  end.

(** [dt.replace(microsecond=0)] *)
Definition to_the_second (dt : datetime) : datetime :=
  mk_datetime (year dt) (month dt) (day dt)
    (hour dt) (minute dt) (second dt) 0.

(** [needle in s], computed *)
Fixpoint contains (needle s : string) : bool :=
  is_not_None (Py.strip_prefix needle s)
  || match s with
     | String _ s' => contains needle s'
     | EmptyString => false
     end.

(** A second clock, for runs at another time. *)
Definition later_datetime : datetime := mk_datetime 2020 2 29 23 59 58 0.

Definition later_world : world :=
  mk_world [] (fun _ => Some later_datetime) 0.

(** Further sample messages. *)

Definition message_without_remarks : string :=
  "Call Type AB (MEDICAL) Incident No 12345 Loc 123 Main St City Anywhere "
  ++ "Units E10 *** Premise".

Definition message_with_empty_location : string :=
  "Call Type AB (MEDICAL) Incident No 12345 Loc City Units E10 *** Premise".

Definition message_with_no_units : string :=
  "Call Type AB (MEDICAL) Incident No 12345 Loc 123 Main St City Anywhere "
  ++ "Units *** Premise".

Definition message_with_adjacent_markers : string :=
  "Call Type AB (MEDICAL) Incident No 12345 Loc 123 Main St City Anywhere "
  ++ "Units*** Premise".

Definition message_without_markers : string :=
  "Call Type AB (MEDICAL) Incident No 12345 Loc 123 Main St City Anywhere".

Definition message_with_two_cities : string :=
  "Loc 12 Main St" ++ nl ++ "City Hall City Anywhere".

(** ** Definitions used by the further results *)

(** The first character of [s] is in the class [p]. *)
Definition starts_with_class (p : ascii → bool) (s : string) : bool :=
  match s with
  | String c _ => p c
  | EmptyString => false
  end.

(** The last character of [s] is in the class [p]. *)
Fixpoint ends_with_class (p : ascii → bool) (s : string) : bool :=
  match s with
  | EmptyString => false
  | String c EmptyString => p c
  | String _ s' => ends_with_class p s'
  end.

(** [s[n:]] *)
Fixpoint drop (n : nat) (s : string) : string :=
  match n, s with
  | S n', String _ s' => drop n' s'
  | _, _ => s
  end.

(** [sep.join(l)] *)
Fixpoint join (sep : string) (l : list string) : string :=
  match l with
  | [] => ""
  | [x] => x
  | x :: l' => x ++ sep ++ join sep l'
  end.

(** How many of the four guarded extractors return [None] on [msg]. *)
Definition misses (msg : string) : nat :=
  (if is_not_None (number_value msg) then 0 else 1)
  + (if is_not_None (call_type_value msg) then 0 else 1)
  + (if is_not_None (location_value msg) then 0 else 1)
  + (if is_not_None (equipment_value msg) then 0 else 1).

(** Somewhere in [s] a whitespace character stands right before a
    closing parenthesis. *)
Fixpoint space_before_paren (s : string) : bool :=
  match s with
  | String c s' =>
      (Py.isspace c && starts_with_class (Py.is_char ")") s')
      || space_before_paren s'
  | EmptyString => false
  end.

(** Further sample messages and a clock that fails at its first reading. *)

Definition message_without_number : string :=
  "Call Type AB (MEDICAL) Loc 123 Main St City Anywhere Units E10 *** Premise".

Definition failing_clock_world : world :=
  mk_world []
    (λ n, match n with 0 => None | _ => Some sample_datetime end) 0.


(** * Properties *)

(** ** Strings *)

Section string_facts.
Implicit Types (a b c s t p : string) (x y : ascii).

Lemma sapp_nil_l s : "" ++ s = s.
Proof. reflexivity. Qed.

Lemma sapp_cons x s t : String x s ++ t = String x (s ++ t).
Proof. reflexivity. Qed.

Lemma sapp_nil_r s : s ++ "" = s.
Proof. induction s as [|x s IH]; [reflexivity|]. by rewrite sapp_cons, IH. Qed.

Lemma sapp_assoc a b c : (a ++ b) ++ c = a ++ b ++ c.
Proof.
  induction a as [|x a IH]; [reflexivity|].
  by rewrite !sapp_cons, IH.
Qed.

Lemma slength_app a b :
  String.length (a ++ b) = String.length a + String.length b.
Proof.
  induction a as [|x a IH]; [reflexivity|].
  rewrite sapp_cons. simpl. by rewrite IH.
Qed.

Lemma slength_zero s : String.length s = 0 → s = "".
Proof. by destruct s. Qed.

(** Two ways of cutting the same string: the shorter left part is a
    prefix of the longer one. *)
Lemma sapp_eq_app a b a' b' :
  a ++ b = a' ++ b' → String.length a ≤ String.length a' →
  ∃ m, a' = a ++ m ∧ b = m ++ b'.
Proof.
  revert a'. induction a as [|x a IH]; intros a' Heq Hlen.
  - exists a'. by rewrite !sapp_nil_l in *.
  - destruct a' as [|y a']; [simpl in Hlen; lia|].
    rewrite !sapp_cons in Heq. injection Heq as -> Heq.
    destruct (IH a' Heq) as (m & -> & ->); [simpl in Hlen; lia|].
    by exists m.
Qed.

Lemma sapp_inv_length a b a' b' :
  a ++ b = a' ++ b' → String.length a = String.length a' →
  a = a' ∧ b = b'.
Proof.
  intros Heq Hlen.
  destruct (sapp_eq_app _ _ _ _ Heq) as (m & -> & ->); [lia|].
  rewrite slength_app in Hlen.
  assert (m = "") as -> by (apply slength_zero; lia).
  by rewrite sapp_nil_r.
Qed.

Lemma strip_prefix_app p t : Py.strip_prefix p (p ++ t) = Some t.
Proof.
  induction p as [|x p IH]; [by destruct t|].
  rewrite sapp_cons. simpl. by destruct (ascii_dec x x).
Qed.

Lemma strip_prefix_Some p s t : Py.strip_prefix p s = Some t → s = p ++ t.
Proof.
  revert s. induction p as [|x p IH]; intros s H.
  - destruct s; by inversion H.
  - destruct s as [|y s]; [done|]. simpl in H.
    destruct (ascii_dec x y) as [->|]; [|done].
    by rewrite sapp_cons, (IH _ H).
Qed.

Lemma strip_prefix_None p s :
  Py.strip_prefix p s = None → ∀ t, s ≠ p ++ t.
Proof. intros H t ->. by rewrite strip_prefix_app in H. Qed.

Lemma take_app a b : Py.take (String.length a) (a ++ b) = a.
Proof.
  induction a as [|x a IH]; [by destruct b|].
  rewrite sapp_cons. simpl. by rewrite IH.
Qed.

(** The text of a group, as [run] computes it from the lengths. *)
Lemma take_consumed a b :
  Py.take (String.length (a ++ b) - String.length b) (a ++ b) = a.
Proof.
  rewrite slength_app.
  replace (String.length a + String.length b - String.length b)
    with (String.length a) by lia.
  apply take_app.
Qed.

Lemma take_consumed_cons x a b :
  Py.take (S (String.length (a ++ b)) - String.length b) (String x (a ++ b))
  = String x a.
Proof. apply (take_consumed (String x a) b). Qed.
End string_facts.

(** A class given by an interval of codes that holds no whitespace. *)
Ltac not_space_by_code c :=
  unfold Py.isdigit, Py.isupper_AZ, Py.isspace;
  generalize (Py.code c); intros n;
  intros [H1 H2]%andb_true_iff;
  apply Nat.leb_le in H1; apply Nat.leb_le in H2;
  repeat (apply orb_false_iff; split);
  try (apply Nat.eqb_neq; lia);
  apply andb_false_iff; right; apply Nat.leb_gt; lia.

Section strip_facts.
Implicit Types (s t : string).

Lemma lstrip_spaces s : all_chars Py.isspace s = true → Py.lstrip s = "".
Proof.
  induction s as [|x s IH]; [done|]. simpl.
  intros [Hx Hs]%andb_true_iff. rewrite Hx. auto.
Qed.

Lemma strip_spaces s : all_chars Py.isspace s = true → Py.strip s = "".
Proof. intros H. unfold Py.strip. by rewrite lstrip_spaces. Qed.

Lemma lstrip_no_space s :
  all_chars (λ c, negb (Py.isspace c)) s = true → Py.lstrip s = s.
Proof.
  destruct s as [|x s]; [done|]. simpl.
  intros [Hx _]%andb_true_iff. by destruct (Py.isspace x).
Qed.

Lemma rstrip_no_space s :
  all_chars (λ c, negb (Py.isspace c)) s = true → Py.rstrip s = s.
Proof.
  induction s as [|x s IH]; [done|]. simpl.
  intros [Hx Hs]%andb_true_iff. rewrite (IH Hs).
  destruct s; [|done]. by destruct (Py.isspace x).
Qed.

Lemma strip_no_space s :
  all_chars (λ c, negb (Py.isspace c)) s = true → Py.strip s = s.
Proof.
  intros H. unfold Py.strip. rewrite lstrip_no_space by done.
  by apply rstrip_no_space.
Qed.

Lemma all_chars_impl (p q : ascii → bool) s :
  (∀ c, p c = true → q c = true) →
  all_chars p s = true → all_chars q s = true.
Proof.
  intros Hpq. induction s as [|x s IH]; [done|]. simpl.
  intros [Hx Hs]%andb_true_iff. rewrite (Hpq _ Hx). auto.
Qed.

Lemma isdigit_not_space c :
  Py.isdigit c = true → negb (Py.isspace c) = true.
Proof. intros H. apply negb_true_iff. revert H. not_space_by_code c. Qed.
End strip_facts.

(** ** The matcher *)

Section star_facts.
Context {A : Type}.
Implicit Types (k : string → option A) (s a b : string).

(** A successful repetition consumed a prefix of class [p] and the rest
    of the pattern accepted what was left. *)
Lemma star_Some_inv p s k r :
  star p s k = Some r →
  ∃ a b, s = a ++ b ∧ all_chars p a = true ∧ k b = Some r.
Proof.
  induction s as [|x s IH]; simpl.
  - intros H. by exists "", "".
  - destruct (p x) eqn:Hx.
    + destruct (star p s k) as [r0|] eqn:Hs.
      * intros [= ->]. destruct (IH eq_refl) as (a & b & -> & Ha & Hk).
        exists (String x a), b. rewrite sapp_cons. simpl. by rewrite Hx, Ha.
      * intros H. by exists "", (String x s).
    + intros H. by exists "", (String x s).
Qed.

Lemma star_None p s k :
  (∀ a b, s = a ++ b → k b = None) → star p s k = None.
Proof.
  induction s as [|x s IH]; simpl; intros H.
  - by apply (H "" "").
  - rewrite IH.
    + destruct (p x); by apply (H "" (String x s)).
    + intros a b ->. by apply (H (String x a) b).
Qed.

(** Greedy [.*]: of all the places where the rest of the pattern
    accepts, the last one wins. *)
Lemma star_any_greedy s a b k r :
  s = a ++ b → k b = Some r →
  (∀ a' b', s = a' ++ b' → String.length a < String.length a' →
            k b' = None) →
  star Py.anychar s k = Some r.
Proof.
  revert s. induction a as [|x a IH]; intros s -> Hk Hlast.
  - rewrite sapp_nil_l in *. destruct b as [|y b]; [done|]. simpl.
    rewrite star_None; [done|].
    intros a' b' ->. apply (Hlast (String y a') b'); [done|simpl; lia].
  - rewrite sapp_cons. simpl. erewrite IH; [done|done|done|].
    intros a' b' Heq Hlen. apply (Hlast (String x a') b').
    + by rewrite sapp_cons, Heq.
    + simpl. lia.
Qed.

Lemma plus_Some_inv p s k r :
  plus p s k = Some r →
  ∃ a b, s = a ++ b ∧ a ≠ "" ∧ all_chars p a = true ∧ k b = Some r.
Proof.
  destruct s as [|x s]; simpl; [done|].
  destruct (p x) eqn:Hx; [|done].
  intros (a & b & -> & Ha & Hk)%star_Some_inv.
  exists (String x a), b. rewrite sapp_cons. simpl. by rewrite Hx, Ha.
Qed.
End star_facts.

(** Whatever [run] answers is an answer of its continuation, given on a
    suffix of the text. *)
Lemma run_Some_inv {A : Type} (r : regex) :
  ∀ s g (k : string → gmap string string → option A) x,
    run r s g k = Some x →
    ∃ a s' g', s = a ++ s' ∧ k s' g' = Some x.
Proof.
  induction r as [l|p|p|p|r1 IH1 r2 IH2|name r IH|r IH|r IH];
    intros s g k x; simpl.
  - destruct (Py.strip_prefix l s) as [s'|] eqn:Hl; [|done].
    intros Hk. apply strip_prefix_Some in Hl. by exists l, s', g.
  - destruct s as [|c s]; [done|]. destruct (p c); [|done].
    intros Hk. by exists (String c ""), s, g.
  - intros (a & b & -> & _ & Hk)%star_Some_inv. by exists a, b, g.
  - intros (a & b & -> & _ & _ & Hk)%plus_Some_inv. by exists a, b, g.
  - intros (a & s1 & g1 & -> & H2)%IH1.
    apply IH2 in H2 as (b & s2 & g2 & -> & Hk).
    exists (a ++ b), s2, g2. by rewrite sapp_assoc.
  - intros (a & s1 & g1 & -> & Hk)%IH. eauto.
  - apply IH.
  - destruct (run r s g _) as [g'|]; [|done].
    intros Hk. by exists "", s, g'.
Qed.

Section search_facts.
Implicit Types (r : regex) (s a b : string).

Lemma search_Some_inv r s m :
  search r s = Some m →
  ∃ a b, s = a ++ b ∧ match_at r b = Some m ∧
    ∀ a' b', s = a' ++ b' → String.length a' < String.length a →
             match_at r b' = None.
Proof.
  induction s as [|x s IH]; simpl.
  - destruct (match_at r "") as [m'|] eqn:Hm; [|done].
    intros [= ->]. exists "", "". repeat split; [done|].
    intros a' b' _ Hlen. simpl in Hlen. lia.
  - destruct (match_at r (String x s)) as [m'|] eqn:Hm.
    + intros [= ->]. exists "", (String x s). repeat split; [done|].
      intros a' b' _ Hlen. simpl in Hlen. lia.
    + intros (a & b & -> & Hb & Hfirst)%IH.
      exists (String x a), b. repeat split; [done|].
      intros [|y a'] b' Heq Hlen.
      * rewrite sapp_nil_l in Heq. by subst b'.
      * rewrite !sapp_cons in Heq. injection Heq as -> Heq.
        apply (Hfirst a' b' Heq). simpl in Hlen. lia.
Qed.

Lemma search_None r s :
  (∀ a b, s = a ++ b → match_at r b = None) → search r s = None.
Proof.
  induction s as [|x s IH]; simpl; intros H.
  - by rewrite (H "" "").
  - rewrite (H "" (String x s)) by done.
    apply IH. intros a b ->. by apply (H (String x a) b).
Qed.

(** [re.search] answers with the match at the first position that has
    one. *)
Lemma search_first r s a b m :
  s = a ++ b → match_at r b = Some m →
  (∀ a' b', s = a' ++ b' → String.length a' < String.length a →
            match_at r b' = None) →
  search r s = Some m.
Proof.
  revert s. induction a as [|x a IH]; intros s -> Hm Hfirst.
  - rewrite sapp_nil_l. destruct b; simpl; by rewrite Hm.
  - rewrite sapp_cons. simpl.
    rewrite (Hfirst "" (String x (a ++ b))); [|done|simpl; lia].
    apply IH; [done|done|].
    intros a' b' Heq Hlen. apply (Hfirst (String x a') b').
    + by rewrite sapp_cons, Heq.
    + simpl. lia.
Qed.
End search_facts.

Lemma star_ext {A : Type} p s (k k' : string → option A) :
  (∀ t, k t = k' t) → star p s k = star p s k'.
Proof.
  intros Hk. induction s as [|x s IH]; simpl; [done|].
  by rewrite IH, Hk.
Qed.

(** ** Patterns of the form [l(?P<n>.*(?=m))]

    The location and the remarks patterns have this form: a literal, then
    a named group that takes everything up to a literal seen ahead. *)

Section span_facts.
Variables l n m : string.
Implicit Types (s a b c t : string).

Lemma match_at_span b :
  match_at (span_pattern l n m) b =
  match Py.strip_prefix l b with
  | Some t => star Py.anychar t (span_tail n m t)
  | None => None
  end.
Proof.
  unfold match_at. simpl. destruct (Py.strip_prefix l b) as [t|]; [|done].
  apply star_ext. intros t'. unfold span_tail.
  by destruct (Py.strip_prefix m t').
Qed.

Lemma match_at_span_Some_inv s rest gd :
  match_at (span_pattern l n m) s = Some (rest, gd) →
  ∃ b c, s = l ++ b ++ m ++ c ∧ gd = <[n := b]> ∅ ∧ rest = m ++ c.
Proof.
  rewrite match_at_span.
  destruct (Py.strip_prefix l s) as [t|] eqn:Hl; [|done].
  apply strip_prefix_Some in Hl as ->.
  intros (b & t' & -> & _ & Ht)%star_Some_inv. unfold span_tail in Ht.
  destruct (Py.strip_prefix m t') as [c|] eqn:Hm; [|done].
  apply strip_prefix_Some in Hm as ->. injection Ht as <- <-.
  exists b, c. by rewrite take_consumed.
Qed.

Lemma search_span_Some_inv s rest gd :
  search (span_pattern l n m) s = Some (rest, gd) →
  ∃ a b c, s = a ++ l ++ b ++ m ++ c ∧ gd = <[n := b]> ∅ ∧ rest = m ++ c.
Proof.
  intros (a & s' & -> & Hm & _)%search_Some_inv.
  apply match_at_span_Some_inv in Hm as (b & c & -> & -> & ->).
  by exists a, b, c.
Qed.

Lemma search_span_None s :
  (∀ a b c, s ≠ a ++ l ++ b ++ m ++ c) →
  search (span_pattern l n m) s = None.
Proof.
  intros Habsent. apply search_None. intros a s' ->.
  destruct (match_at (span_pattern l n m) s') as [[rest gd]|] eqn:Hm; [|done].
  apply match_at_span_Some_inv in Hm as (b & c & -> & _ & _).
  by destruct (Habsent a b c).
Qed.

(** The match starts at the first [l] and its group ends in front of the
    last [m]. *)
Lemma search_span_greedy pre b post :
  (∀ a c, pre ++ l ++ b ++ m ++ post = a ++ l ++ c →
          String.length pre ≤ String.length a) →
  (∀ a c, b ++ m ++ post = a ++ m ++ c →
          String.length a ≤ String.length b) →
  search (span_pattern l n m) (pre ++ l ++ b ++ m ++ post) =
  Some (m ++ post, <[n := b]> ∅).
Proof.
  intros Hfirst Hlast.
  apply (search_first _ _ pre (l ++ b ++ m ++ post)); [done| |].
  - rewrite match_at_span, strip_prefix_app.
    apply (star_any_greedy _ b (m ++ post)); [done| |].
    + unfold span_tail. by rewrite strip_prefix_app, take_consumed.
    + intros a' b' Heq Hlen. unfold span_tail.
      destruct (Py.strip_prefix m b') as [c|] eqn:Hm; [|done].
      apply strip_prefix_Some in Hm as ->.
      specialize (Hlast a' c Heq). lia.
  - intros a' b' Heq Hlen. rewrite match_at_span.
    destruct (Py.strip_prefix l b') as [c|] eqn:Hl; [|done].
    apply strip_prefix_Some in Hl as ->.
    specialize (Hfirst a' c Heq). lia.
Qed.
End span_facts.

(** ** Patterns of the form [l(?P<n>(\s.*(?=m1\sm2)))] *)

Section units_facts.
Variables l n m1 m2 : string.
Implicit Types (s a b t u : string) (c d : ascii).

Lemma marker_ahead_true s :
  marker_ahead m1 m2 s = true ↔
  ∃ d u, Py.isspace d = true ∧ s = m1 ++ String d (m2 ++ u).
Proof.
  unfold marker_ahead. split.
  - destruct (Py.strip_prefix m1 s) as [[|d t]|] eqn:H1; [done| |done].
    apply strip_prefix_Some in H1 as ->.
    intros [Hd H2]%andb_true_iff.
    destruct (Py.strip_prefix m2 t) as [u|] eqn:Hu; [|done].
    apply strip_prefix_Some in Hu as ->. by exists d, u.
  - intros (d & u & Hd & ->).
    by rewrite strip_prefix_app, Hd, strip_prefix_app.
Qed.

Lemma match_at_units b :
  match_at (units_pattern l n m1 m2) b =
  match Py.strip_prefix l b with
  | Some (String c t) =>
      if Py.isspace c then
        star Py.anychar t (λ t',
          if marker_ahead m1 m2 t' then
            Some (t', <[n := Py.take (String.length (String c t)
                                      - String.length t') (String c t)]> ∅)
          else None)
      else None
  | _ => None
  end.
Proof.
  unfold match_at. simpl.
  destruct (Py.strip_prefix l b) as [[|c t]|]; [done| |done].
  destruct (Py.isspace c); [|done].
  apply star_ext. intros t'. unfold marker_ahead.
  destruct (Py.strip_prefix m1 t') as [[|d u]|]; [done| |done].
  destruct (Py.isspace d); [|done]. simpl.
  by destruct (Py.strip_prefix m2 u).
Qed.

Lemma match_at_units_Some_inv s rest gd :
  match_at (units_pattern l n m1 m2) s = Some (rest, gd) →
  ∃ c b d u, Py.isspace c = true ∧ Py.isspace d = true ∧
    s = l ++ String c b ++ m1 ++ String d (m2 ++ u) ∧
    gd = <[n := String c b]> ∅.
Proof.
  rewrite match_at_units.
  destruct (Py.strip_prefix l s) as [[|c t]|] eqn:Hl; [done| |done].
  apply strip_prefix_Some in Hl as ->.
  destruct (Py.isspace c) eqn:Hc; [|done].
  intros (b & t' & -> & _ & Ht)%star_Some_inv.
  destruct (marker_ahead m1 m2 t') eqn:Hm; [|done].
  apply marker_ahead_true in Hm as (d & u & Hd & ->).
  injection Ht as <- <-. exists c, b, d, u.
  repeat split; [done..|].
  by rewrite take_consumed_cons.
Qed.

Lemma search_units_Some_inv s rest gd :
  search (units_pattern l n m1 m2) s = Some (rest, gd) →
  ∃ a c b d u, Py.isspace c = true ∧ Py.isspace d = true ∧
    s = a ++ l ++ String c b ++ m1 ++ String d (m2 ++ u) ∧
    gd = <[n := String c b]> ∅.
Proof.
  intros (a & s' & -> & Hm & _)%search_Some_inv.
  apply match_at_units_Some_inv in Hm as (c & b & d & u & Hc & Hd & -> & ->).
  by exists a, c, b, d, u.
Qed.

(** The match starts at the first [l] that a whitespace character
    follows, and its group ends in front of the last marker. *)
Lemma search_units_greedy pre c b d post :
  Py.isspace c = true → Py.isspace d = true →
  (∀ a c' t, Py.isspace c' = true →
     pre ++ l ++ String c b ++ m1 ++ String d (m2 ++ post)
       = a ++ l ++ String c' t →
     String.length pre ≤ String.length a) →
  (∀ a d' t, Py.isspace d' = true →
     b ++ m1 ++ String d (m2 ++ post) = a ++ m1 ++ String d' (m2 ++ t) →
     String.length a ≤ String.length b) →
  search (units_pattern l n m1 m2)
    (pre ++ l ++ String c b ++ m1 ++ String d (m2 ++ post)) =
  Some (m1 ++ String d (m2 ++ post), <[n := String c b]> ∅).
Proof.
  intros Hc Hd Hfirst Hlast.
  apply (search_first _ _ pre
           (l ++ String c b ++ m1 ++ String d (m2 ++ post))); [done| |].
  - rewrite match_at_units, strip_prefix_app, sapp_cons, Hc.
    apply (star_any_greedy _ b (m1 ++ String d (m2 ++ post))); [done| |].
    + assert (marker_ahead m1 m2 (m1 ++ String d (m2 ++ post)) = true)
        as -> by (apply marker_ahead_true; eauto).
      by rewrite <-(sapp_cons c b), take_consumed.
    + intros a' b' Heq Hlen.
      destruct (marker_ahead m1 m2 b') eqn:Hm; [|done].
      apply marker_ahead_true in Hm as (d' & u & Hd' & ->).
      specialize (Hlast a' d' u Hd' Heq). lia.
  - intros a' b' Heq Hlen. rewrite match_at_units.
    destruct (Py.strip_prefix l b') as [[|c' t]|] eqn:Hl; [done| |done].
    apply strip_prefix_Some in Hl as ->.
    destruct (Py.isspace c') eqn:Hc'; [|done].
    specialize (Hfirst a' c' t Hc' Heq). lia.
Qed.
End units_facts.

(** ** The patterns of the source *)

Lemma location_pattern_span :
  location_pattern = span_pattern "Loc " "location" "City".
Proof. reflexivity. Qed.

Lemma remarks_pattern_span :
  remarks_pattern = span_pattern "Remarks " "remarks" "Prty".
Proof. reflexivity. Qed.

Lemma equipment_pattern_units :
  equipment_pattern = units_pattern "Units" "equipment" "***" "Premise".
Proof. reflexivity. Qed.

Lemma match_at_number b :
  match_at number_pattern b =
  match Py.strip_prefix "Incident No " b with
  | Some t =>
      plus Py.isdigit t (λ t',
        Some (t', <["number" := Py.take (String.length t - String.length t') t]>
                    (∅ : gmap string string)))
  | None => None
  end.
Proof. reflexivity. Qed.

(** The number group is a non-empty run of digits. *)
Lemma group_of_number data g :
  group_of number_pattern "number" data = Some g →
  g ≠ "" ∧ all_chars Py.isdigit g = true.
Proof.
  unfold group_of.
  destruct (search number_pattern data) as [[rest gd]|] eqn:Hs; [|done].
  apply search_Some_inv in Hs as (a & b & -> & Hm & _).
  rewrite match_at_number in Hm.
  destruct (Py.strip_prefix "Incident No " b) as [t|]; [|done].
  apply plus_Some_inv in Hm as (ds & t' & -> & Hne & Hds & [= <- <-]).
  rewrite take_consumed, lookup_insert_eq. by intros [= <-].
Qed.

(** Whenever one of the source's patterns matches, its named group is
    set, so that [groupdict().get(...)] is not [None]. *)
Lemma named_group_set l name r data rest gd :
  search (Lit l >> Named name r) data = Some (rest, gd) →
  is_Some (gd !! name).
Proof.
  intros (a & b & -> & Hm & _)%search_Some_inv.
  unfold match_at in Hm. simpl in Hm.
  destruct (Py.strip_prefix l b) as [t|]; [|done].
  apply run_Some_inv in Hm as (a' & s' & g' & -> & [= <- <-]).
  rewrite lookup_insert_eq. eauto.
Qed.

(** ** The extractors, one by one *)

(** A guarded extractor always returns, with the value fixed by the
    message; a failure, whatever its cause, is logged. *)
Lemma guarded_extractor_returns {A : Type} r name prop (f : string → A)
    data w :
  ∃ w',
    guarded_extractor r name prop f data w =
      (Returned ((λ g, f (Py.strip g)) <$> group_of r name data), w') ∧
    guarded_effect ((λ g, f (Py.strip g)) <$> group_of r name data) w w'.
Proof.
  unfold guarded_extractor, group_of, try_except, guarded_effect.
  destruct (search r data) as [[rest gd]|].
  - destruct (gd !! name) as [g|]; simpl.
    + by exists w.
    + eexists. split; [reflexivity|]. simpl. eauto.
  - unfold raise_ParsingError, bind, today_strftime.
    destruct (clock w (ticks w)); simpl;
      (eexists; split; [reflexivity|]; simpl; eauto).
Qed.

Lemma call_type_guarded data :
  call_type_custom_function data =
  guarded_extractor call_type_pattern "call_type" "call_type"
    (sub space_paren_pattern ")") data.
Proof. reflexivity. Qed.

Lemma incident_number_guarded data :
  incident_number_custom_function data =
  guarded_extractor number_pattern "number" "number" id data.
Proof. reflexivity. Qed.

Lemma location_guarded data :
  location_custom_function data =
  guarded_extractor location_pattern "location" "location"
    (λ result, (result,
       coordinates_custom_function
         "1100 Business Parkway S, Westminster, MD 21157")) data.
Proof. reflexivity. Qed.

Lemma equipment_guarded data :
  equipment_custom_function data =
  guarded_extractor equipment_pattern "equipment" "equipment"
    equipment_post data.
Proof. reflexivity. Qed.

Lemma call_type_returns data w :
  ∃ w', call_type_custom_function data w
          = (Returned (call_type_value data), w') ∧
        guarded_effect (call_type_value data) w w'.
Proof. rewrite call_type_guarded. apply guarded_extractor_returns. Qed.

Lemma incident_number_returns data w :
  ∃ w', incident_number_custom_function data w
          = (Returned (number_value data), w') ∧
        guarded_effect (number_value data) w w'.
Proof. rewrite incident_number_guarded. apply guarded_extractor_returns. Qed.

Lemma location_returns data w :
  ∃ w', location_custom_function data w
          = (Returned (location_value data), w') ∧
        guarded_effect (location_value data) w w'.
Proof. rewrite location_guarded. apply guarded_extractor_returns. Qed.

Lemma equipment_returns data w :
  ∃ w', equipment_custom_function data w
          = (Returned (equipment_value data), w') ∧
        guarded_effect (equipment_value data) w w'.
Proof. rewrite equipment_guarded. apply guarded_extractor_returns. Qed.

(** The remarks extractor has no handler and needs none: it returns, and
    leaves the world as it found it. *)
Lemma remarks_returns data w :
  remarks_custom_function data w = (Returned (remarks_value data), w).
Proof.
  unfold remarks_custom_function, remarks_value, group_of.
  destruct (search remarks_pattern data) as [[rest gd]|] eqn:Hs; [|done].
  destruct (named_group_set _ _ _ _ _ _ Hs) as [g ->]. done.
Qed.

Lemma time_returns data w dt :
  clock w (ticks w) = Some dt →
  time_custom_function data w = (Returned (strftime dt), tick w).
Proof.
  intros H. unfold time_custom_function, try_except, bind, today_strftime.
  by rewrite H.
Qed.

(** When reading the clock fails, the failure reaches the caller. *)
Lemma time_raises data w :
  clock w (ticks w) = None →
  time_custom_function data w =
    (Raised match clock w (S (ticks w)) with
            | Some dt => ParsingError (strftime dt) "time" data "Not specified"
            | None => ClockError
            end,
     tick (tick w)).
Proof.
  intros H.
  unfold time_custom_function, try_except, bind, today_strftime,
    raise_ParsingError, bind, today_strftime.
  rewrite H. simpl. by destruct (clock w (S (ticks w))).
Qed.

(** ** The loop body *)

(** The five message extractors run first and always return; what is
    left of the body is the reading of the clock. *)
Lemma parse_data_body_unfold msg dict_list w :
  ∃ w1, clock w1 = clock w ∧ (complete msg = true → w1 = w) ∧
    parse_data_body msg dict_list w =
    (time <- time_custom_function msg ;;
     ret (dict_list ++ records_of msg time)%list) w1.
Proof.
  destruct (incident_number_returns msg w) as (w1 & E1 & C1 & G1).
  destruct (call_type_returns msg w1) as (w2 & E2 & C2 & G2).
  destruct (location_returns msg w2) as (w3 & E3 & C3 & G3).
  destruct (equipment_returns msg w3) as (w4 & E4 & C4 & G4).
  exists w4. split; [congruence|]. split.
  - unfold complete.
    destruct (number_value msg); [|done].
    destruct (location_value msg); [|by rewrite andb_false_r].
    destruct (call_type_value msg); [|by rewrite andb_false_r].
    destruct (equipment_value msg); [|by rewrite andb_false_r].
    congruence.
  - unfold parse_data_body, bind.
    rewrite E1, E2, E3.
    unfold records_of, complete, formatted_dict_of.
    destruct (location_value msg) as [[loc coords]|];
      rewrite E4, remarks_returns;
      destruct (time_custom_function msg w4) as [[t|e] w5]; try done;
      simpl;
      match goal with
      | |- context [if ?c then _ else _] => destruct c
      end; simpl; unfold ret; by rewrite ?app_nil_r.
Qed.

Lemma time_clock data w o w' :
  time_custom_function data w = (o, w') → clock w' = clock w.
Proof.
  destruct (clock w (ticks w)) as [dt|] eqn:H.
  - rewrite (time_returns _ _ _ H). by intros [= <- <-].
  - rewrite (time_raises _ _ H). by intros [= <- <-].
Qed.

(** A message whose four required values are there leaves the world
    untouched until the clock is read. *)
Lemma parse_data_body_complete msg dict_list w dt :
  complete msg = true → clock w (ticks w) = Some dt →
  parse_data_body msg dict_list w =
  (Returned (dict_list ++ [formatted_dict_of msg (strftime dt)])%list, tick w).
Proof.
  intros Hc Hdt.
  destruct (parse_data_body_unfold msg dict_list w) as (w1 & _ & Hw & ->).
  rewrite (Hw Hc). unfold bind. rewrite (time_returns _ _ _ Hdt).
  unfold records_of. by rewrite Hc.
Qed.

(** An incomplete message adds nothing. *)
Lemma parse_data_body_incomplete msg dict_list w recs w' :
  complete msg = false →
  parse_data_body msg dict_list w = (Returned recs, w') → recs = dict_list.
Proof.
  intros Hc.
  destruct (parse_data_body_unfold msg dict_list w) as (w1 & _ & _ & ->).
  unfold bind. destruct (time_custom_function msg w1) as [[t|e] w2]; [|done].
  unfold records_of. rewrite Hc, app_nil_r. by intros [= <- <-].
Qed.

Lemma parse_data_body_total msg dict_list w :
  clock_works w →
  ∃ time w', clock w' = clock w ∧
    parse_data_body msg dict_list w =
      (Returned (dict_list ++ records_of msg time)%list, w').
Proof.
  intros Hw.
  destruct (parse_data_body_unfold msg dict_list w) as (w1 & Hc & _ & ->).
  destruct (Hw (ticks w1)) as [dt Hdt]. rewrite <-Hc in Hdt.
  unfold bind. rewrite (time_returns _ _ _ Hdt).
  exists (strftime dt), (tick w1). by split.
Qed.

(** ** The loop *)

(** What [parse_data] returns is, message by message and in order, what
    each turn of the loop appends; [times] are the clock readings. *)
Lemma parse_data_loop_returned data :
  ∀ dict_list w recs w',
    parse_data_loop data dict_list w = (Returned recs, w') →
    ∃ times, length times = length data ∧
      recs = (dict_list ++ concat (zip_with records_of data times))%list.
Proof.
  induction data as [|msg data IH]; intros dict_list w recs w'; simpl.
  - intros [= <- <-]. exists []. by rewrite app_nil_r.
  - unfold bind at 1.
    destruct (parse_data_body_unfold msg dict_list w) as (w1 & _ & _ & ->).
    unfold bind at 1.
    destruct (time_custom_function msg w1) as [[t|e] w2]; [|done].
    simpl. intros (times & Hlen & ->)%IH.
    exists (t :: times). simpl. split; [by rewrite Hlen|].
    by rewrite <-app_assoc.
Qed.

Lemma parse_data_loop_total data :
  ∀ dict_list w, clock_works w →
    ∃ recs w', parse_data_loop data dict_list w = (Returned recs, w').
Proof.
  induction data as [|msg data IH]; intros dict_list w Hw; simpl.
  - by exists dict_list, w.
  - destruct (parse_data_body_total msg dict_list w Hw)
      as (t & w1 & Hc & Hbody).
    unfold bind. rewrite Hbody. apply IH.
    intros n. rewrite Hc. apply Hw.
Qed.

(** ** The call type is never empty *)

Lemma isupper_not_space c : Py.isupper_AZ c = true → Py.isspace c = false.
Proof. not_space_by_code c. Qed.

Lemma rstrip_cons_no_space c s :
  Py.isspace c = false → Py.rstrip (String c s) = String c (Py.rstrip s).
Proof. intros H. simpl. destruct (Py.rstrip s); by rewrite ?H. Qed.

Lemma match_at_call_type b :
  match_at call_type_pattern b =
  match Py.strip_prefix "Call Type " b with
  | Some t =>
      plus Py.isupper_AZ t (λ t1,
        plus Py.isspace t1 (λ t2,
          match Py.strip_prefix "(" t2 with
          | Some t3 =>
              star Py.anychar t3 (λ t4,
                match Py.strip_prefix ")" t4 with
                | Some t5 =>
                    Some (t5,
                      <["call_type" :=
                          Py.take (String.length t - String.length t5) t]>
                        (∅ : gmap string string))
                | None => None
                end)
          | None => None
          end))
  | None => None
  end.
Proof. reflexivity. Qed.

(** The call type group starts with a capital letter. *)
Lemma group_of_call_type data g :
  group_of call_type_pattern "call_type" data = Some g →
  ∃ u rest, g = String u rest ∧ Py.isupper_AZ u = true.
Proof.
  unfold group_of.
  destruct (search call_type_pattern data) as [[rest gd]|] eqn:Hs; [|done].
  apply search_Some_inv in Hs as (a & b & -> & Hm & _).
  rewrite match_at_call_type in Hm.
  destruct (Py.strip_prefix "Call Type " b) as [t|]; [|done].
  apply plus_Some_inv in Hm as (us & t1 & -> & Hne & Hus & Hm).
  apply plus_Some_inv in Hm as (ws & t2 & -> & _ & _ & Hm).
  destruct (Py.strip_prefix "(" t2) as [t3|] eqn:H3; [|done].
  apply strip_prefix_Some in H3 as ->.
  apply star_Some_inv in Hm as (x & t4 & -> & _ & Hm).
  destruct (Py.strip_prefix ")" t4) as [t5|] eqn:H5; [|done].
  apply strip_prefix_Some in H5 as ->. injection Hm as <- <-.
  rewrite lookup_insert_eq. intros [= <-].
  replace (us ++ ws ++ "(" ++ x ++ ")" ++ t5)
    with ((us ++ ws ++ "(" ++ x ++ ")") ++ t5)
    by (by rewrite !sapp_assoc).
  rewrite take_consumed.
  destruct us as [|u us]; [done|]. simpl in Hus.
  apply andb_true_iff in Hus as [Hu _].
  rewrite sapp_cons. eauto.
Qed.

Lemma call_type_value_nonempty data c :
  call_type_value data = Some c → c ≠ "".
Proof.
  unfold call_type_value.
  destruct (group_of call_type_pattern "call_type" data) as [g|] eqn:Hg;
    [|done].
  apply group_of_call_type in Hg as (u & rest & -> & Hu%isupper_not_space).
  simpl. intros [= <-]. unfold Py.strip. simpl. rewrite Hu.
  rewrite rstrip_cons_no_space by done.
  unfold sub. simpl. unfold match_at. simpl. by rewrite Hu.
Qed.

Lemma number_value_digits data n :
  number_value data = Some n → n ≠ "" ∧ all_chars Py.isdigit n = true.
Proof.
  unfold number_value.
  destruct (group_of number_pattern "number" data) as [g|] eqn:Hg; [|done].
  apply group_of_number in Hg as [Hne Hd]. simpl. intros [= <-].
  rewrite strip_no_space; [done|].
  eapply all_chars_impl; [|exact Hd]. apply isdigit_not_space.
Qed.

(** The final test of the loop body, spelled out. *)
Lemma complete_true msg :
  complete msg = true ↔
  is_Some (number_value msg) ∧ is_Some (call_type_value msg) ∧
  (∃ l co, location_value msg = Some (l, co) ∧ l ≠ "") ∧
  is_Some (equipment_value msg).
Proof.
  unfold complete. split.
  - intros [[[H1 H2]%andb_true_iff H3]%andb_true_iff H4]%andb_true_iff.
    destruct (number_value msg) as [n|]; [|done].
    destruct (call_type_value msg) as [c|]; [|done].
    destruct (location_value msg) as [[l co]|]; [|done].
    destruct (equipment_value msg) as [e|]; [|done].
    repeat split; eauto. exists l, co. split; [done|].
    intros ->. done.
  - intros ([n Hn] & [c Hc] & (l & co & Hl & Hne) & [e He]).
    destruct (number_value_digits _ _ Hn) as [Hn' _].
    pose proof (call_type_value_nonempty _ _ Hc) as Hc'.
    rewrite Hn, Hc, Hl, He. simpl.
    destruct n; [done|]. destruct c; [done|]. by destruct l.
Qed.

(** ** Values returned, whatever the world *)

Lemma returns_inj {A : Type} (m : Python A) v v' :
  returns m v → returns m v' → v = v'.
Proof.
  intros H H'. destruct (H still_world) as [w1 E1].
  destruct (H' still_world) as [w2 E2]. congruence.
Qed.

Lemma returns_number msg :
  returns (incident_number_custom_function msg) (number_value msg).
Proof. intros w. destruct (incident_number_returns msg w) as (w' & ? & _); eauto. Qed.

Lemma returns_call_type msg :
  returns (call_type_custom_function msg) (call_type_value msg).
Proof. intros w. destruct (call_type_returns msg w) as (w' & ? & _); eauto. Qed.

Lemma returns_location msg :
  returns (location_custom_function msg) (location_value msg).
Proof. intros w. destruct (location_returns msg w) as (w' & ? & _); eauto. Qed.

Lemma returns_equipment msg :
  returns (equipment_custom_function msg) (equipment_value msg).
Proof. intros w. destruct (equipment_returns msg w) as (w' & ? & _); eauto. Qed.

Lemma returns_remarks msg :
  returns (remarks_custom_function msg) (remarks_value msg).
Proof. intros w. exists w. apply remarks_returns. Qed.

Create HintDb extractors.
#[local] Hint Resolve returns_number returns_call_type returns_location
  returns_equipment returns_remarks : extractors.

Lemma location_value_coordinates msg l co :
  location_value msg = Some (l, co) → co = "39.6029,-77.0015".
Proof.
  unfold location_value.
  destruct (group_of location_pattern "location" msg); [|done].
  simpl. by intros [= _ <-].
Qed.

(** ** Records *)

Lemma formatted_dict_full msg time n c l co e :
  number_value msg = Some n → call_type_value msg = Some c →
  location_value msg = Some (l, co) → equipment_value msg = Some e →
  formatted_dict_of msg time =
  full_record n c l co e (default "None" (remarks_value msg)) time.
Proof.
  intros Hn Hc Hl He. unfold formatted_dict_of. by rewrite Hn, Hc, Hl, He.
Qed.

Lemma full_record_dom n c l co e r t :
  dom (full_record n c l co e r t) = record_keys.
Proof.
  unfold full_record, record_keys.
  rewrite !dom_insert_L, dom_empty_L. set_solver.
Qed.

Lemma complete_full msg time :
  complete msg = true →
  ∃ n c l co e,
    number_value msg = Some n ∧ call_type_value msg = Some c ∧
    location_value msg = Some (l, co) ∧ l ≠ "" ∧
    equipment_value msg = Some e ∧
    formatted_dict_of msg time =
      full_record n c l co e (default "None" (remarks_value msg)) time.
Proof.
  intros ([n Hn] & [c Hc] & (l & co & Hl & Hne) & [e He])%complete_true.
  exists n, c, l, co, e. repeat split; try done.
  by apply formatted_dict_full.
Qed.

Lemma in_records data :
  ∀ times rec,
    rec ∈ concat (zip_with records_of data times) →
    ∃ msg t, msg ∈ data ∧ complete msg = true ∧
             rec = formatted_dict_of msg t.
Proof.
  induction data as [|msg data IH]; intros [|t times] rec; simpl;
    try (by intros ?%elem_of_nil).
  intros [H|H]%elem_of_app.
  - unfold records_of in H. destruct (complete msg) eqn:Hc.
    + apply list_elem_of_singleton in H as ->.
      exists msg, t. repeat split; [left|done].
    + by apply elem_of_nil in H.
  - destruct (IH _ _ H) as (msg' & t' & Hin & Hc & ->).
    exists msg', t'. repeat split; [by right|done].
Qed.

Lemma records_in data :
  ∀ times msg,
    length times = length data → msg ∈ data → complete msg = true →
    ∃ t, formatted_dict_of msg t ∈ concat (zip_with records_of data times).
Proof.
  induction data as [|msg' data IH]; intros [|t times] msg Hlen Hin Hc;
    simpl in *; try done.
  - by apply elem_of_nil in Hin.
  - apply elem_of_cons in Hin as [->|Hin].
    + exists t. apply elem_of_app. left. unfold records_of. rewrite Hc.
      by apply list_elem_of_singleton.
    + destruct (IH times msg) as [t' Ht']; [lia|done|done|].
      exists t'. apply elem_of_app. by right.
Qed.

Lemma records_eq_except_time data :
  ∀ times1 times2,
    length times1 = length data → length times2 = length data →
    Forall2 eq_except_time
      (concat (zip_with records_of data times1))
      (concat (zip_with records_of data times2)).
Proof.
  induction data as [|msg data IH]; intros [|t1 times1] [|t2 times2] H1 H2;
    simpl in *; try done.
  apply Forall2_app.
  - unfold records_of. destruct (complete msg); [|done].
    constructor; [|constructor].
    intros key Hkey. unfold formatted_dict_of. cbv zeta.
    rewrite !(lookup_insert_ne _ "time") by done. done.
  - apply IH; lia.
Qed.

Lemma required_fields_complete msg :
  required_fields_present msg ↔ complete msg = true.
Proof.
  rewrite complete_true. split.
  - intros (n & c & l & co & e & Hn & Hc & Hl & Hne & He).
    rewrite <-(returns_inj _ _ _ Hn (returns_number msg)).
    rewrite <-(returns_inj _ _ _ Hc (returns_call_type msg)).
    rewrite <-(returns_inj _ _ _ Hl (returns_location msg)).
    rewrite <-(returns_inj _ _ _ He (returns_equipment msg)).
    repeat split; eauto.
  - intros ([n Hn] & [c Hc] & (l & co & Hl & Hne) & [e He]).
    exists n, c, l, co, e.
    rewrite <-Hn, <-Hc, <-Hl, <-He.
    repeat split; auto with extractors.
Qed.

Lemma full_record_fields n c l co e r t :
  full_record n c l co e r t !! "number" = Some (VStr n) ∧
  full_record n c l co e r t !! "call_type" = Some (VStr c) ∧
  full_record n c l co e r t !! "location" = Some (VStr l) ∧
  full_record n c l co e r t !! "coordinates" = Some (VStr co) ∧
  full_record n c l co e r t !! "equipment" = Some (VList e) ∧
  full_record n c l co e r t !! "remarks" = Some (VStr r) ∧
  full_record n c l co e r t !! "time" = Some (VStr t).
Proof. repeat split; reflexivity. Qed.

Lemma parse_data_returned data w recs w' :
  parse_data data w = (Returned recs, w') →
  ∃ times, length times = length data ∧
    recs = concat (zip_with records_of data times).
Proof. apply parse_data_loop_returned. Qed.

Lemma parse_data_total data w :
  clock_works w → ∃ recs w', parse_data data w = (Returned recs, w').
Proof. apply parse_data_loop_total. Qed.

(** ** The extractors on small inputs *)

Example number_takes_first_match :
  number_value "Incident No 12 then Incident No 34" = Some "12".
Proof. reflexivity. Qed.

Example number_needs_a_digit :
  number_value "Incident No none" = None.
Proof. reflexivity. Qed.

Example call_type_runs_to_last_paren :
  call_type_value ("Call Type AB (MEDICAL  " ++ nl ++ " ) x (y  )")
  = Some "AB (MEDICAL) x (y)".
Proof. reflexivity. Qed.

Example equipment_runs_to_last_marker :
  equipment_value "Units E1 *** Premise and *** Premise"
  = Some ["E1 *** Premise and"].
Proof. reflexivity. Qed.

Example equipment_splits_on_comma_space :
  equipment_value ("Units E10, A12,B7 ***" ++ nl ++ "Premise")
  = Some ["E10"; "A12,B7"].
Proof. reflexivity. Qed.

Example remarks_joins_lines :
  remarks_value ("Remarks  fell" ++ nl ++ "from ladder Prty 2")
  = Some "fell from ladder".
Proof. reflexivity. Qed.

Example missing_number_is_logged :
  incident_number_custom_function "Loc here City" sample_world =
  (Returned None,
   mk_world [ParsingError "2019-07-04 13:05:09" "number" "Loc here City"
               "Insufficient regex"]
     (clock sample_world) 1).
Proof. reflexivity. Qed.

(** * Main results *)

(** C1.  A record that [parse_data] emits comes from a message whose
    number, call type, location and equipment extractions all returned a
    value (an empty equipment list included), and it carries all seven
    fields: no partial record is emitted.  Remarks and coordinates do not
    block emission: a message of the input whose four required fields
    pass the final test has its record in the output, whatever the
    remarks extractor returned for it. *)
Theorem C1_emission_requires_the_four_fields data w recs w' :
  parse_data data w = (Returned recs, w') →
  Forall (λ rec, ∃ msg n c l co e r t,
            msg ∈ data ∧
            returns (incident_number_custom_function msg) (Some n) ∧
            returns (call_type_custom_function msg) (Some c) ∧
            returns (location_custom_function msg) (Some (l, co)) ∧
            returns (equipment_custom_function msg) (Some e) ∧
            rec = full_record n c l co e r t) recs ∧
  (∀ msg r, msg ∈ data → required_fields_present msg →
     returns (remarks_custom_function msg) r →
     ∃ n c l co e t, full_record n c l co e (default "None" r) t ∈ recs).
Proof.
  intros (times & Hlen & ->)%parse_data_returned. split.
  - apply Forall_forall. intros rec (msg & t & Hin & Hc & ->)%in_records.
    destruct (complete_full msg t Hc)
      as (n & c & l & co & e & Hn & Hct & Hl & _ & He & ->).
    exists msg, n, c, l, co, e, (default "None" (remarks_value msg)), t.
    rewrite <-Hn, <-Hct, <-Hl, <-He.
    repeat split; auto with extractors.
  - intros msg r Hin Hc%required_fields_complete Hr.
    rewrite (returns_inj _ _ _ Hr (returns_remarks msg)).
    destruct (records_in data times msg Hlen Hin Hc) as [t Ht].
    destruct (complete_full msg t Hc)
      as (n & c & l & co & e & _ & _ & _ & _ & _ & Hrec).
    rewrite Hrec in Ht. by exists n, c, l, co, e, t.
Qed.

Lemma C1_witness :
  Forall (λ rec, ∃ msg n c l co e r t,
            msg ∈ [sample_message] ∧
            returns (incident_number_custom_function msg) (Some n) ∧
            returns (call_type_custom_function msg) (Some c) ∧
            returns (location_custom_function msg) (Some (l, co)) ∧
            returns (equipment_custom_function msg) (Some e) ∧
            rec = full_record n c l co e r t)
    [sample_record "2019-07-04 13:05:09"] ∧
  (∀ msg r, msg ∈ [sample_message] → required_fields_present msg →
     returns (remarks_custom_function msg) r →
     ∃ n c l co e t,
       full_record n c l co e (default "None" r) t
         ∈ [sample_record "2019-07-04 13:05:09"]).
Proof.
  apply (C1_emission_requires_the_four_fields
           [sample_message] sample_world
           [sample_record "2019-07-04 13:05:09"] (tick sample_world)).
  vm_compute. reflexivity.
Defined.

(** C10.  Every record that [parse_data] emits has exactly the seven keys
    number, call_type, location, coordinates, equipment, remarks and
    time; its coordinates are the constant ["39.6029,-77.0015"] and its
    number is a non-empty string of decimal digits. *)
Theorem C10_emitted_record_shape data w recs w' :
  parse_data data w = (Returned recs, w') →
  Forall (λ rec,
            dom rec = record_keys ∧
            rec !! "coordinates" = Some (VStr "39.6029,-77.0015") ∧
            ∃ n, rec !! "number" = Some (VStr n) ∧ n ≠ "" ∧
                 all_chars Py.isdigit n = true) recs.
Proof.
  intros (times & Hlen & ->)%parse_data_returned.
  apply Forall_forall. intros rec (msg & t & Hin & Hc & ->)%in_records.
  destruct (complete_full msg t Hc)
    as (n & c & l & co & e & Hn & _ & Hl & _ & _ & ->).
  apply location_value_coordinates in Hl as ->.
  apply number_value_digits in Hn as [Hne Hd].
  split; [apply full_record_dom|]. split; [reflexivity|].
  exists n. by repeat split.
Qed.

Lemma C10_witness :
  Forall (λ rec,
            dom rec = record_keys ∧
            rec !! "coordinates" = Some (VStr "39.6029,-77.0015") ∧
            ∃ n, rec !! "number" = Some (VStr n) ∧ n ≠ "" ∧
                 all_chars Py.isdigit n = true)
    [sample_record "2019-07-04 13:05:09"].
Proof.
  apply (C10_emitted_record_shape
           [sample_message] sample_world
           [sample_record "2019-07-04 13:05:09"] (tick sample_world)).
  vm_compute. reflexivity.
Defined.

(** ** Timestamps *)

Lemma digit_value_digit k : k < 10 → digit_value (digit k) = Some k.
Proof.
  intros H. do 10 (destruct k as [|k]; [reflexivity|]). lia.
Qed.

Lemma number2_fmt2 n :
  n < 100 → number2 (digit (n / 10 mod 10)) (digit (n mod 10)) = Some n.
Proof.
  intros Hn. unfold number2.
  rewrite !digit_value_digit by (apply Nat.mod_upper_bound; lia).
  f_equal.
  rewrite (Nat.mod_small (n / 10))
    by (apply Nat.Div0.div_lt_upper_bound; lia).
  pose proof (Nat.div_mod_eq n 10). lia.
Qed.

Lemma number4_fmt4 n :
  n < 10 * 1000 →
  number4 (digit (n / 1000 mod 10)) (digit (n / 100 mod 10))
          (digit (n / 10 mod 10)) (digit (n mod 10)) = Some n.
Proof.
  intros Hn. unfold number4, number2.
  rewrite !digit_value_digit by (apply Nat.mod_upper_bound; lia).
  f_equal.
  pose proof (Nat.div_mod_eq n 10).
  pose proof (Nat.div_mod_eq (n / 10) 10).
  pose proof (Nat.div_mod_eq (n / 100) 10).
  pose proof (Nat.div_mod_eq (n / 1000) 10).
  pose proof (Nat.Div0.div_div n 10 10).
  pose proof (Nat.Div0.div_div n 100 10).
  pose proof (Nat.Div0.div_div n 1000 10).
  change (10 * 10) with 100 in *. change (100 * 10) with 1000 in *.
  assert (n / (1000 * 10) = 0) by (apply Nat.div_small; lia).
  lia.
Qed.

Lemma is_char_refl a : Py.is_char a a = true.
Proof. unfold Py.is_char. by destruct (ascii_dec a a). Qed.

Lemma strftime_length dt : String.length (strftime dt) = 19.
Proof. reflexivity. Qed.

(** What [strftime] writes for a well-formed reading is read back as
    that reading, to the second. *)
Lemma strptime_strftime dt :
  well_formed dt = true → strptime (strftime dt) = Some (to_the_second dt).
Proof.
  intros Hwf. pose proof Hwf as Hr. unfold well_formed, in_range in Hr.
  repeat (apply andb_true_iff in Hr as [Hr ?]).
  repeat match goal with
         | H : (_ <=? _) = true |- _ => apply Nat.leb_le in H
         | H : (_ <? _) = true |- _ => apply Nat.ltb_lt in H
         end.
  assert (day dt ≤ 31).
  { etrans; [eassumption|]. unfold days_in_month.
    destruct (month dt) as [|[|[|[|[|[|[|[|[|[|[|[|]]]]]]]]]]]]; try lia.
    destruct (is_leap _); lia. }
  cbv [strptime strftime fmt4 fmt2 String.append list_ascii_of_string].
  rewrite !is_char_refl. simpl andb. cbv iota.
  rewrite number4_fmt4 by lia. rewrite !number2_fmt2 by lia.
  change (in_range _ _ _ _ _ _) with (well_formed dt). by rewrite Hwf.
Qed.

(** C5.  Whatever the message, the time extractor returns the reading of
    the wall clock written as YYYY-MM-DD HH:MM:SS: nineteen characters
    that read back as the same timestamp, to the second.  When reading
    the clock fails, the failure is not swallowed: the extractor raises
    to its caller. *)
Theorem C5_time_extractor data w dt :
  clock w (ticks w) = Some dt → well_formed dt = true →
  time_custom_function data w = (Returned (strftime dt), tick w) ∧
  String.length (strftime dt) = 19 ∧
  strptime (strftime dt) = Some (to_the_second dt) ∧
  (∀ w0, clock w0 (ticks w0) = None →
     ∃ e w0', time_custom_function data w0 = (Raised e, w0')).
Proof.
  intros Hdt Hwf. split; [by apply time_returns|].
  split; [apply strftime_length|]. split; [by apply strptime_strftime|].
  intros w0 H0. rewrite (time_raises _ _ H0). eauto.
Qed.

Lemma C5_witness :
  time_custom_function sample_message sample_world
    = (Returned "2019-07-04 13:05:09", tick sample_world) ∧
  String.length (strftime sample_datetime) = 19 ∧
  strptime (strftime sample_datetime) = Some (to_the_second sample_datetime) ∧
  (∀ w0, clock w0 (ticks w0) = None →
     ∃ e w0', time_custom_function sample_message w0 = (Raised e, w0')).
Proof.
  apply (C5_time_extractor sample_message sample_world sample_datetime);
    reflexivity.
Defined.

(** C6.  For the sample message of the specification, [parse_data]
    returns the single record with number 12345, call type AB (MEDICAL),
    location 123 Main St, the constant coordinates, equipment E10 and
    A12, remarks patient breathing, and the current reading of the clock
    as its time. *)
Theorem C6_sample_message w dt :
  clock w (ticks w) = Some dt →
  parse_data [sample_message] w =
  (Returned [full_record "12345" "AB (MEDICAL)" "123 Main St"
               "39.6029,-77.0015" ["E10"; "A12"] "patient breathing"
               (strftime dt)],
   tick w).
Proof.
  intros Hdt. unfold parse_data. simpl. unfold bind.
  rewrite (parse_data_body_complete _ _ _ dt) by (done || by vm_compute).
  simpl. unfold ret.
  rewrite (formatted_dict_full sample_message (strftime dt)
             "12345" "AB (MEDICAL)" "123 Main St" "39.6029,-77.0015"
             ["E10"; "A12"]) by (by vm_compute).
  reflexivity.
Qed.

Lemma C6_witness :
  parse_data [sample_message] sample_world =
  (Returned [full_record "12345" "AB (MEDICAL)" "123 Main St"
               "39.6029,-77.0015" ["E10"; "A12"] "patient breathing"
               "2019-07-04 13:05:09"],
   tick sample_world).
Proof. apply (C6_sample_message sample_world sample_datetime). reflexivity. Defined.

(** C7.  Two runs of [parse_data] on the same collection of messages, in
    any two worlds whose clocks work, both return; the two sequences of
    records have the same length and agree, record by record, in every
    field except [time]. *)
Theorem C7_two_runs_agree_except_time data w1 w2 :
  clock_works w1 → clock_works w2 →
  ∃ recs1 w1' recs2 w2',
    parse_data data w1 = (Returned recs1, w1') ∧
    parse_data data w2 = (Returned recs2, w2') ∧
    length recs1 = length recs2 ∧
    Forall2 eq_except_time recs1 recs2.
Proof.
  intros H1 H2.
  destruct (parse_data_total data w1 H1) as (recs1 & w1' & E1).
  destruct (parse_data_total data w2 H2) as (recs2 & w2' & E2).
  exists recs1, w1', recs2, w2'. split; [done|]. split; [done|].
  apply parse_data_returned in E1 as (times1 & Hl1 & ->).
  apply parse_data_returned in E2 as (times2 & Hl2 & ->).
  pose proof (records_eq_except_time data times1 times2 Hl1 Hl2) as HF.
  split; [by eapply Forall2_length|done].
Qed.

Lemma C7_witness :
  ∃ recs1 w1' recs2 w2',
    parse_data [sample_message; "no fields here"] sample_world
      = (Returned recs1, w1') ∧
    parse_data [sample_message; "no fields here"] later_world
      = (Returned recs2, w2') ∧
    length recs1 = length recs2 ∧
    Forall2 eq_except_time recs1 recs2.
Proof.
  apply (C7_two_runs_agree_except_time
           [sample_message; "no fields here"] sample_world later_world);
    intros n; eexists; reflexivity.
Defined.

(** ** Occurrences *)

Lemma contains_occurs needle s :
  contains needle s = true ↔ occurs needle s.
Proof.
  unfold occurs. split.
  - induction s as [|x s IH]; simpl.
    + destruct (Py.strip_prefix needle "") as [t|] eqn:H; [|done].
      apply strip_prefix_Some in H. intros _. by exists "", t.
    + destruct (Py.strip_prefix needle (String x s)) as [t|] eqn:H.
      * apply strip_prefix_Some in H. intros _. by exists "", t.
      * simpl. intros (a & b & ->)%IH. by exists (String x a), b.
  - intros (a & b & ->). induction a as [|x a IH].
    + rewrite sapp_nil_l. destruct (needle ++ b) eqn:E; simpl;
        by rewrite <-E, strip_prefix_app.
    + rewrite sapp_cons. simpl. rewrite IH. apply orb_true_r.
Qed.

Lemma not_contains needle s a b :
  contains needle s = false → s ≠ a ++ needle ++ b.
Proof.
  intros H ->. assert (contains needle (a ++ needle ++ b) = true) as E.
  { apply contains_occurs. by exists a, b. }
  congruence.
Qed.

(** No [l0 ++ ch] begins in front of the one that follows [pre]. *)
Lemma first_occurrence l0 ch pre rest a c :
  contains (l0 ++ String ch "") (pre ++ l0) = false →
  pre ++ (l0 ++ String ch "") ++ rest = a ++ (l0 ++ String ch "") ++ c →
  String.length pre ≤ String.length a.
Proof.
  intros Hno Heq.
  destruct (Nat.le_gt_cases (String.length pre) (String.length a)) as [|Hlt];
    [done|exfalso].
  symmetry in Heq.
  destruct (sapp_eq_app _ _ _ _ Heq) as (x & -> & Hx); [lia|].
  rewrite slength_app in Hlt.
  assert ((l0 ++ String ch "") ++ c = (x ++ l0) ++ String ch rest) as Hx'.
  { rewrite Hx, !sapp_assoc. done. }
  destruct (sapp_eq_app _ _ _ _ Hx') as (y & Hy & _).
  { rewrite !slength_app. simpl. lia. }
  apply (not_contains _ _ a y) in Hno. apply Hno.
  by rewrite sapp_assoc, Hy.
Qed.

(** No [ch ++ m'] begins behind the one that follows [b]. *)
Lemma last_occurrence ch m' b post a c :
  contains (String ch m') (m' ++ post) = false →
  b ++ String ch m' ++ post = a ++ String ch m' ++ c →
  String.length a ≤ String.length b.
Proof.
  intros Hno Heq.
  destruct (Nat.le_gt_cases (String.length a) (String.length b)) as [|Hlt];
    [done|exfalso].
  destruct (sapp_eq_app _ _ _ _ Heq) as (x & -> & Hx); [lia|].
  rewrite slength_app in Hlt.
  destruct x as [|x0 x]; [simpl in Hlt; lia|].
  rewrite !sapp_cons in Hx. injection Hx as _ Hx.
  by apply (not_contains _ _ x c) in Hno.
Qed.

Lemma search_None_inv r s a b :
  search r s = None → s = a ++ b → match_at r b = None.
Proof.
  revert s. induction a as [|x a IH]; intros s Hs ->.
  - rewrite sapp_nil_l in Hs. destruct b; simpl in Hs;
      by destruct (match_at r _).
  - rewrite sapp_cons in Hs. simpl in Hs.
    destruct (match_at r (String x (a ++ b))); [done|]. by eapply IH.
Qed.

Lemma star_any_complete {A : Type} s a b (k : string → option A) :
  s = a ++ b → is_Some (k b) → is_Some (star Py.anychar s k).
Proof.
  revert s. induction a as [|x a IH]; intros s -> Hk.
  - rewrite sapp_nil_l. destruct b as [|y b]; [done|]. simpl.
    by destruct (star Py.anychar b k).
  - rewrite sapp_cons. simpl.
    destruct (IH (a ++ b) eq_refl Hk) as [r ->]. eauto.
Qed.

(** The location and remarks patterns miss exactly the messages without
    their span. *)
Lemma search_span_None_iff l n m s :
  search (span_pattern l n m) s = None ↔
  ∀ a b c, s ≠ a ++ l ++ b ++ m ++ c.
Proof.
  split; [|apply search_span_None].
  intros Hs a b c ->.
  pose proof (search_None_inv _ _ a (l ++ b ++ m ++ c) Hs eq_refl) as Hm.
  rewrite match_at_span, strip_prefix_app in Hm.
  destruct (star_any_complete (b ++ m ++ c) b (m ++ c)
              (span_tail n m (b ++ m ++ c)) eq_refl) as [r Hr].
  - unfold span_tail. rewrite strip_prefix_app. eauto.
  - congruence.
Qed.

(** ** One turn of the loop, from the extractors' results *)

Lemma body_emits msg n c l co e dict_list w dt :
  returns (incident_number_custom_function msg) (Some n) →
  returns (call_type_custom_function msg) (Some c) →
  returns (location_custom_function msg) (Some (l, co)) → l ≠ "" →
  returns (equipment_custom_function msg) (Some e) →
  clock w (ticks w) = Some dt →
  parse_data_body msg dict_list w =
  (Returned (dict_list ++
     [full_record n c l co e (default "None" (remarks_value msg))
        (strftime dt)])%list,
   tick w).
Proof.
  intros Hn Hc Hl Hne He Hdt.
  assert (complete msg = true) as Hcomplete.
  { apply required_fields_complete. by exists n, c, l, co, e. }
  rewrite (parse_data_body_complete _ _ _ dt) by done.
  rewrite (formatted_dict_full msg _ n c l co e);
    eauto using returns_inj with extractors.
Qed.

Lemma body_skips msg dict_list w :
  complete msg = false → clock_works w →
  ∃ w', parse_data_body msg dict_list w = (Returned dict_list, w').
Proof.
  intros Hc Hw.
  destruct (parse_data_body_total msg dict_list w Hw) as (t & w' & _ & E).
  exists w'. rewrite E. unfold records_of. by rewrite Hc, app_nil_r.
Qed.

(** C8.  On every string, each of the call type, number, location,
    equipment and remarks extractors returns, a value or [None], and
    raises nothing to its caller.  For the four guarded ones a [None]
    comes with one more entry in the error log, and their handler turns
    any exception of the guarded block into such a logged [None]; the
    remarks extractor leaves the world as it is. *)
Theorem C8_extractors_never_raise data w :
  (∃ w', call_type_custom_function data w
           = (Returned (call_type_value data), w') ∧
         guarded_effect (call_type_value data) w w') ∧
  (∃ w', incident_number_custom_function data w
           = (Returned (number_value data), w') ∧
         guarded_effect (number_value data) w w') ∧
  (∃ w', location_custom_function data w
           = (Returned (location_value data), w') ∧
         guarded_effect (location_value data) w w') ∧
  (∃ w', equipment_custom_function data w
           = (Returned (equipment_value data), w') ∧
         guarded_effect (equipment_value data) w w') ∧
  remarks_custom_function data w = (Returned (remarks_value data), w) ∧
  (∀ (A : Type) (body : Python (option A)) e w1,
     body w = (Raised e, w1) →
     try_except body log_and_return_None w =
       (Returned None,
        mk_world (errors_log w1 ++ [e])%list (clock w1) (ticks w1))).
Proof.
  split; [apply call_type_returns|].
  split; [apply incident_number_returns|].
  split; [apply location_returns|].
  split; [apply equipment_returns|].
  split; [apply remarks_returns|].
  intros A body e w1 Hbody. unfold try_except. by rewrite Hbody.
Qed.

Lemma C8_witness :
  try_except (raise AttributeError) log_and_return_None sample_world =
  (Returned (None : option string),
   mk_world [AttributeError] (clock sample_world) 0).
Proof.
  apply (proj2 (proj2 (proj2 (proj2 (proj2
           (C8_extractors_never_raise "no fields here" sample_world)))))
           string (raise AttributeError) AttributeError sample_world).
  reflexivity.
Defined.

(** C3.  A message without a span from ["Remarks "] to ["Prty"] makes
    the remarks extractor return [None]: it does not raise and it logs
    nothing.  If the required fields of the message are there, the
    record that the loop appends has the string ["None"] as remarks. *)
Theorem C3_missing_remarks msg :
  (∀ a b c, msg ≠ a ++ "Remarks " ++ b ++ "Prty" ++ c) →
  (∀ w, remarks_custom_function msg w = (Returned None, w)) ∧
  (required_fields_present msg →
   ∀ dict_list w dt, clock w (ticks w) = Some dt →
     ∃ rec,
       parse_data_body msg dict_list w
         = (Returned (dict_list ++ [rec])%list, tick w) ∧
       rec !! "remarks" = Some (VStr "None")).
Proof.
  intros Habsent.
  assert (remarks_value msg = None) as Hr.
  { unfold remarks_value, group_of.
    by rewrite remarks_pattern_span, search_span_None. }
  split.
  - intros w. by rewrite remarks_returns, Hr.
  - intros (n & c & l & co & e & Hn & Hc & Hl & Hne & He) dict_list w dt Hdt.
    eexists. split; [by eapply body_emits|].
    rewrite Hr. reflexivity.
Qed.

Lemma C3_witness :
  remarks_custom_function message_without_remarks sample_world
    = (Returned None, sample_world) ∧
  ∃ rec,
    parse_data_body message_without_remarks [] sample_world
      = (Returned [rec], tick sample_world) ∧
    rec !! "remarks" = Some (VStr "None").
Proof.
  assert (∀ a b c,
            message_without_remarks ≠ a ++ "Remarks " ++ b ++ "Prty" ++ c)
    as Habsent.
  { apply (search_span_None_iff "Remarks " "remarks" "Prty").
    vm_compute. reflexivity. }
  destruct (C3_missing_remarks message_without_remarks Habsent) as [H1 H2].
  split; [apply H1|].
  apply (H2 (proj2 (required_fields_complete message_without_remarks)
               eq_refl)
            [] sample_world sample_datetime).
  reflexivity.
Defined.

(** C9.  When the location extractor returns the empty string as the
    address, the final test of the loop body fails: the turn of the loop
    for that message appends nothing, and does return when the clock
    works.  The same test accepts an empty equipment list: a message
    whose equipment extractor returns [[]], and whose other required
    fields are there, gets its record. *)
Theorem C9_empty_location_blocks msg co :
  returns (location_custom_function msg) (Some ("", co)) →
  (∀ dict_list w recs w',
     parse_data_body msg dict_list w = (Returned recs, w') →
     recs = dict_list) ∧
  (∀ dict_list w, clock_works w →
     ∃ w', parse_data_body msg dict_list w = (Returned dict_list, w')) ∧
  (∀ msg' n c l co' dict_list w dt,
     returns (incident_number_custom_function msg') (Some n) →
     returns (call_type_custom_function msg') (Some c) →
     returns (location_custom_function msg') (Some (l, co')) → l ≠ "" →
     returns (equipment_custom_function msg') (Some []) →
     clock w (ticks w) = Some dt →
     ∃ rec,
       parse_data_body msg' dict_list w
         = (Returned (dict_list ++ [rec])%list, tick w) ∧
       rec !! "equipment" = Some (VList [])).
Proof.
  intros Hl.
  assert (complete msg = false) as Hc.
  { unfold complete.
    rewrite <-(returns_inj _ _ _ Hl (returns_location msg)). simpl.
    by rewrite andb_false_r. }
  split; [intros ????; by apply parse_data_body_incomplete|].
  split; [intros ??; by apply body_skips|].
  intros msg' n c l co' dict_list w dt Hn Hct Hl' Hne He Hdt.
  eexists. split; [by eapply body_emits|]. reflexivity.
Qed.

Lemma C9_witness :
  (∃ w', parse_data_body message_with_empty_location [] sample_world
           = (Returned [], w')) ∧
  ∃ rec,
    parse_data_body message_with_no_units [] sample_world
      = (Returned [rec], tick sample_world) ∧
    rec !! "equipment" = Some (VList []).
Proof.
  assert (returns (location_custom_function message_with_empty_location)
            (Some ("", "39.6029,-77.0015"))) as Hl.
  { apply (returns_location message_with_empty_location). }
  destruct (C9_empty_location_blocks _ _ Hl) as (_ & H2 & H3).
  split.
  - apply (H2 [] sample_world). intros n. eexists. reflexivity.
  - apply (H3 message_with_no_units "12345" "AB (MEDICAL)" "123 Main St"
             "39.6029,-77.0015" [] sample_world sample_datetime).
    + apply (returns_number message_with_no_units).
    + apply (returns_call_type message_with_no_units).
    + apply (returns_location message_with_no_units).
    + discriminate.
    + apply (returns_equipment message_with_no_units).
    + reflexivity.
Defined.

(** ** Equipment *)

Lemma equipment_value_Some_inv msg e :
  equipment_value msg = Some e →
  ∃ a c b d u, Py.isspace c = true ∧ Py.isspace d = true ∧
    msg = a ++ "Units" ++ String c b ++ "***" ++ String d ("Premise" ++ u).
Proof.
  unfold equipment_value, group_of. rewrite equipment_pattern_units.
  destruct (search _ msg) as [[rest gd]|] eqn:Hs; [|done].
  apply search_units_Some_inv in Hs as (a & c & b & d & u & Hc & Hd & -> & _).
  intros _. by exists a, c, b, d, u.
Qed.

Lemma equipment_value_no_units pre c ws d post :
  Py.isspace c = true → all_chars Py.isspace ws = true →
  Py.isspace d = true →
  (∀ a c' t, Py.isspace c' = true →
     pre ++ "Units" ++ String c ws ++ "***" ++ String d ("Premise" ++ post)
       = a ++ "Units" ++ String c' t →
     String.length pre ≤ String.length a) →
  (∀ a d' t, Py.isspace d' = true →
     ws ++ "***" ++ String d ("Premise" ++ post)
       = a ++ "***" ++ String d' ("Premise" ++ t) →
     String.length a ≤ String.length ws) →
  equipment_value
    (pre ++ "Units" ++ String c ws ++ "***" ++ String d ("Premise" ++ post))
  = Some [].
Proof.
  intros Hc Hws Hd Hfirst Hlast.
  unfold equipment_value, group_of.
  rewrite equipment_pattern_units, search_units_greedy by done.
  rewrite lookup_insert_eq. simpl.
  rewrite strip_spaces; [done|]. simpl. by rewrite Hc, Hws.
Qed.

(** C2, as the code has it.  A message in which ["Units"] does not
    occur, or in which no ["***"], whitespace character, ["Premise"]
    occurs, makes the equipment extractor return [None], and the turn of
    the loop for it appends nothing.  When the first ["Units"] followed
    by whitespace and the last such marker have at least one whitespace
    character, and nothing but whitespace, between them, the extractor
    returns the empty list, and the record is appended if the number,
    the call type and a non-empty location are extracted. *)
Theorem C2_equipment_markers :
  (∀ msg,
     (¬ occurs "Units" msg ∨
      ∀ d, Py.isspace d = true → ¬ occurs ("***" ++ String d "Premise") msg) →
     returns (equipment_custom_function msg) None ∧
     ∀ dict_list w recs w',
       parse_data_body msg dict_list w = (Returned recs, w') →
       recs = dict_list) ∧
  (∀ pre c ws d post,
     let msg :=
       pre ++ "Units" ++ String c ws ++ "***" ++ String d ("Premise" ++ post)
     in
     Py.isspace c = true → all_chars Py.isspace ws = true →
     Py.isspace d = true →
     (∀ a c' t, Py.isspace c' = true → msg = a ++ "Units" ++ String c' t →
        String.length pre ≤ String.length a) →
     (∀ a d' t, Py.isspace d' = true →
        ws ++ "***" ++ String d ("Premise" ++ post)
          = a ++ "***" ++ String d' ("Premise" ++ t) →
        String.length a ≤ String.length ws) →
     returns (equipment_custom_function msg) (Some []) ∧
     ∀ n ct l co dict_list w dt,
       returns (incident_number_custom_function msg) (Some n) →
       returns (call_type_custom_function msg) (Some ct) →
       returns (location_custom_function msg) (Some (l, co)) → l ≠ "" →
       clock w (ticks w) = Some dt →
       ∃ rec,
         parse_data_body msg dict_list w
           = (Returned (dict_list ++ [rec])%list, tick w) ∧
         rec !! "equipment" = Some (VList [])).
Proof.
  split.
  - intros msg Habsent.
    assert (equipment_value msg = None) as He.
    { destruct (equipment_value msg) as [e|] eqn:He; [exfalso|done].
      apply equipment_value_Some_inv in He
        as (a & c & b & d & u & Hc & Hd & ->).
      destruct Habsent as [Hno|Hno].
      - apply Hno. by exists a, (String c b ++ "***" ++ String d ("Premise" ++ u)).
      - apply (Hno d Hd). exists (a ++ "Units" ++ String c b), u.
        by rewrite !sapp_assoc. }
    split.
    + rewrite <-He. apply returns_equipment.
    + intros dict_list w recs w'. apply parse_data_body_incomplete.
      unfold complete. rewrite He. apply andb_false_r.
  - intros pre c ws d post msg Hc Hws Hd Hfirst Hlast.
    assert (returns (equipment_custom_function msg) (Some [])) as He.
    { rewrite <-(equipment_value_no_units pre c ws d post) by done.
      apply returns_equipment. }
    split; [done|].
    intros n ct l co dict_list w dt Hn Hct Hl Hne Hdt.
    eexists. split; [by eapply body_emits|]. reflexivity.
Qed.

(** C2, as stated, fails.  In this message the two markers are present
    with nothing between them and the other required fields are
    extracted, yet the equipment extractor returns [None], not the empty
    list, and no record is retained: the pattern asks for a whitespace
    character after ["Units"].  The match also runs from the first
    ["Units"] to the last marker, so that a pair of markers with only
    whitespace between them does not give the empty list when another
    marker follows or another ["Units"] precedes. *)
Lemma C2_counterexample :
  message_with_adjacent_markers
    = "Call Type AB (MEDICAL) Incident No 12345 Loc 123 Main St City Anywhere "
      ++ "Units" ++ "" ++ "*** Premise" ∧
  fst (incident_number_custom_function message_with_adjacent_markers
         sample_world) = Returned (Some "12345") ∧
  fst (call_type_custom_function message_with_adjacent_markers sample_world)
    = Returned (Some "AB (MEDICAL)") ∧
  fst (location_custom_function message_with_adjacent_markers sample_world)
    = Returned (Some ("123 Main St", "39.6029,-77.0015")) ∧
  fst (equipment_custom_function message_with_adjacent_markers sample_world)
    = Returned None ∧
  fst (parse_data [message_with_adjacent_markers] sample_world)
    = Returned [] ∧
  fst (equipment_custom_function "Units *** Premise and *** Premise"
         sample_world) = Returned (Some ["*** Premise and"]) ∧
  fst (equipment_custom_function "Units E1 Units *** Premise" sample_world)
    = Returned (Some ["E1 Units"]).
Proof. repeat split; vm_compute; reflexivity. Qed.

Lemma C2_witness :
  (returns (equipment_custom_function message_without_markers) None ∧
   ∀ dict_list w recs w',
     parse_data_body message_without_markers dict_list w
       = (Returned recs, w') →
     recs = dict_list) ∧
  returns (equipment_custom_function message_with_no_units) (Some []) ∧
  ∃ rec,
    parse_data_body message_with_no_units [] sample_world
      = (Returned [rec], tick sample_world) ∧
    rec !! "equipment" = Some (VList []).
Proof.
  destruct C2_equipment_markers as [H1 H2]. split.
  - apply (H1 message_without_markers). left.
    intros H%contains_occurs. vm_compute in H. discriminate.
  - destruct (H2 "Call Type AB (MEDICAL) Incident No 12345 Loc 123 Main St City Anywhere "
                " "%char "" " "%char "") as [He Hrec].
    + reflexivity.
    + reflexivity.
    + reflexivity.
    + intros a c' t _ Heq.
      eapply (first_occurrence "Unit" "s"
               "Call Type AB (MEDICAL) Incident No 12345 Loc 123 Main St City Anywhere "
               _ a (String c' t)); [reflexivity|exact Heq].
    + intros a d' t _ Heq.
      apply (last_occurrence "*" "**" "" (String " " "Premise")
               a (String d' ("Premise" ++ t))); [reflexivity|exact Heq].
    + split; [exact He|].
      apply (Hrec "12345" "AB (MEDICAL)" "123 Main St" "39.6029,-77.0015"
               [] sample_world sample_datetime).
      * apply (returns_number message_with_no_units).
      * apply (returns_call_type message_with_no_units).
      * apply (returns_location message_with_no_units).
      * discriminate.
      * reflexivity.
Defined.

(** ** Location *)

Lemma location_value_greedy pre addr post :
  (∀ a c, pre ++ "Loc " ++ addr ++ "City" ++ post = a ++ "Loc " ++ c →
          String.length pre ≤ String.length a) →
  (∀ a c, addr ++ "City" ++ post = a ++ "City" ++ c →
          String.length a ≤ String.length addr) →
  location_value (pre ++ "Loc " ++ addr ++ "City" ++ post)
  = Some (Py.strip addr, "39.6029,-77.0015").
Proof.
  intros Hfirst Hlast. unfold location_value, group_of.
  rewrite location_pattern_span, search_span_greedy by done.
  by rewrite lookup_insert_eq.
Qed.

(** C4, as the code has it.  The location pattern is matched exactly as
    written (["Loc "] and ["City"] in this case), across newlines and
    greedily: the match starts at the first ["Loc "] and the address runs
    up to the last ["City"] of the message.  The extractor returns the
    address with the surrounding whitespace trimmed, paired with the
    coordinate string, and changes nothing; when the message has no
    ["Loc "] with a ["City"] behind it, it returns [None] and logs the
    failure. *)
Theorem C4_location_span :
  (∀ pre addr post w,
     (∀ a c, pre ++ "Loc " ++ addr ++ "City" ++ post = a ++ "Loc " ++ c →
             String.length pre ≤ String.length a) →
     (∀ a c, addr ++ "City" ++ post = a ++ "City" ++ c →
             String.length a ≤ String.length addr) →
     location_custom_function (pre ++ "Loc " ++ addr ++ "City" ++ post) w
     = (Returned (Some (Py.strip addr, "39.6029,-77.0015")), w)) ∧
  (∀ msg w,
     (∀ a b c, msg ≠ a ++ "Loc " ++ b ++ "City" ++ c) →
     ∃ w' e, location_custom_function msg w = (Returned None, w') ∧
             errors_log w' = (errors_log w ++ [e])%list).
Proof.
  split.
  - intros pre addr post w Hfirst Hlast.
    destruct (location_returns (pre ++ "Loc " ++ addr ++ "City" ++ post) w)
      as (w' & E & _ & Heff).
    rewrite (location_value_greedy pre addr post) in E, Heff by done.
    by rewrite E, Heff.
  - intros msg w Habsent.
    destruct (location_returns msg w) as (w' & E & _ & Heff).
    assert (location_value msg = None) as Hl.
    { unfold location_value, group_of.
      by rewrite location_pattern_span, search_span_None. }
    rewrite Hl in E, Heff. destruct Heff as [e He]. by exists w', e.
Qed.

(** C4, as stated, fails.  With two occurrences of ["City"] the address
    runs up to the last one, not the first, and a message that writes the
    markers in lower case is not matched at all. *)
Lemma C4_counterexample :
  location_custom_function "Loc A City B City" sample_world
    = (Returned (Some ("A City B", "39.6029,-77.0015")), sample_world) ∧
  "A City B" ≠ "A" ∧
  fst (location_custom_function "loc A city" sample_world) = Returned None.
Proof. repeat split; try (vm_compute; reflexivity). discriminate. Qed.

Lemma C4_witness :
  location_custom_function message_with_two_cities sample_world
    = (Returned (Some ("12 Main St" ++ nl ++ "City Hall",
                       "39.6029,-77.0015")), sample_world) ∧
  ∃ w' e, location_custom_function "loc A city" sample_world
            = (Returned None, w') ∧
          errors_log w' = (errors_log sample_world ++ [e])%list.
Proof.
  destruct C4_location_span as [H1 H2]. split.
  - apply (H1 "" ("12 Main St" ++ nl ++ "City Hall ") " Anywhere" sample_world).
    + intros a c Heq.
      eapply (first_occurrence "Loc" " " "" _ a c); [reflexivity|exact Heq].
    + intros a c Heq.
      eapply (last_occurrence "C" "ity" _ " Anywhere" a c);
        [reflexivity|exact Heq].
  - apply (H2 "loc A city" sample_world).
    apply (search_span_None_iff "Loc " "location" "City").
    vm_compute. reflexivity.
Defined.

(** * Further properties of the extractors and of [parse_data] *)

(** ** Completeness of the matcher *)

Lemma star_complete {A : Type} p a b (k : string → option A) :
  all_chars p a = true → is_Some (k b) → is_Some (star p (a ++ b) k).
Proof.
  induction a as [|x a IH]; intros Ha Hk.
  - rewrite sapp_nil_l. destruct b as [|y b]; [done|]. simpl.
    destruct (p y); [|done]. by destruct (star p b k).
  - rewrite sapp_cons. simpl in *. apply andb_true_iff in Ha as [-> Ha].
    destruct (IH Ha Hk) as [r ->]. eauto.
Qed.

Lemma plus_complete {A : Type} p a b (k : string → option A) :
  a ≠ "" → all_chars p a = true → is_Some (k b) →
  is_Some (plus p (a ++ b) k).
Proof.
  destruct a as [|x a]; [done|]. intros _ Ha Hk.
  rewrite sapp_cons. simpl in *. apply andb_true_iff in Ha as [-> Ha].
  by apply star_complete.
Qed.

Lemma search_complete r s a b :
  s = a ++ b → is_Some (match_at r b) → is_Some (search r s).
Proof.
  intros -> Hm. destruct (search r (a ++ b)) as [m|] eqn:Hs; [eauto|].
  rewrite (search_None_inv _ _ a b Hs eq_refl) in Hm. by destruct Hm.
Qed.

(** A repetition that nothing can stop from succeeding takes the whole
    run of the class. *)
Lemma star_maximal {A : Type} p s (k : string → option A) r :
  (∀ t, is_Some (k t)) → star p s k = Some r →
  ∃ a b, s = a ++ b ∧ all_chars p a = true ∧
         starts_with_class p b = false ∧ k b = Some r.
Proof.
  intros Hk. induction s as [|x s IH]; simpl.
  - intros H. by exists "", "".
  - destruct (p x) eqn:Hx.
    + destruct (star p s k) as [r0|] eqn:Hs.
      * intros [= ->]. destruct (IH eq_refl) as (a & b & -> & Ha & Hb & Hr).
        exists (String x a), b. rewrite sapp_cons. simpl. by rewrite Hx, Ha.
      * exfalso. assert (is_Some (star p s k)) as [? ?]; [|congruence].
        rewrite <-(sapp_nil_l s). apply star_complete; [done|apply Hk].
    + intros H. exists "", (String x s). by rewrite sapp_nil_l.
Qed.

(** ** The incident number *)

Lemma number_value_Some_inv msg n :
  number_value msg = Some n →
  ∃ pre rest,
    msg = pre ++ "Incident No " ++ n ++ rest ∧
    n ≠ "" ∧ all_chars Py.isdigit n = true ∧
    starts_with_class Py.isdigit rest = false ∧
    ∀ a d b, Py.isdigit d = true →
      msg = a ++ "Incident No " ++ String d b →
      String.length pre ≤ String.length a.
Proof.
  unfold number_value, group_of.
  destruct (search number_pattern msg) as [[rest gd]|] eqn:Hs; [|done].
  apply search_Some_inv in Hs as (pre & b & -> & Hm & Hfirst).
  rewrite match_at_number in Hm.
  destruct (Py.strip_prefix "Incident No " b) as [t|] eqn:Ht; [|done].
  apply strip_prefix_Some in Ht as ->.
  destruct t as [|x t]; [done|]. simpl in Hm.
  destruct (Py.isdigit x) eqn:Hx; [|done].
  apply star_maximal in Hm as (ds & t' & -> & Hds & Hstop & [= <- <-]);
    [|eauto].
  rewrite take_consumed_cons, lookup_insert_eq. simpl. intros [= <-].
  assert (all_chars Py.isdigit (String x ds) = true) as Hall
    by (simpl; by rewrite Hx, Hds).
  rewrite strip_no_space
    by (eapply all_chars_impl; [apply isdigit_not_space|done]).
  exists pre, t'. rewrite sapp_cons. repeat split; try done.
  intros a d b' Hd Heq.
  destruct (Nat.le_gt_cases (String.length pre) (String.length a)) as [|Hlt];
    [done|exfalso].
  specialize (Hfirst a ("Incident No " ++ String d b') Heq Hlt).
  rewrite match_at_number, strip_prefix_app in Hfirst. simpl in Hfirst.
  rewrite Hd in Hfirst.
  assert (is_Some (star Py.isdigit b' (λ t'0,
     Some (t'0, <["number" := Py.take (S (String.length b') - String.length t'0)
                     (String d b')]> (∅ : gmap string string)))))
    as [? ?]; [|congruence].
  rewrite <-(sapp_nil_l b'). apply star_complete; [done|eauto].
Qed.

Lemma number_value_None_iff msg :
  number_value msg = None ↔
  ∀ a d b, Py.isdigit d = true → msg ≠ a ++ "Incident No " ++ String d b.
Proof.
  split.
  - intros Hn a d b Hd ->.
    unfold number_value, group_of in Hn.
    destruct (search_complete number_pattern
                (a ++ "Incident No " ++ String d b)
                a ("Incident No " ++ String d b) eq_refl) as [[rest gd] Hs].
    + rewrite match_at_number, strip_prefix_app. simpl. rewrite Hd.
      rewrite <-(sapp_nil_l b). apply star_complete; [done|eauto].
    + rewrite Hs in Hn.
      destruct (named_group_set _ _ _ _ _ _ Hs) as [g Hg].
      by rewrite Hg in Hn.
  - intros Habsent. destruct (number_value msg) as [n|] eqn:Hn; [|done].
    apply number_value_Some_inv in Hn as (pre & rest & -> & Hne & Hds & _).
    destruct n as [|d n]; [done|]. simpl in Hds.
    apply andb_true_iff in Hds as [Hd _].
    destruct (Habsent pre d (n ++ rest) Hd). by rewrite sapp_cons.
Qed.

(** ** Trimming *)

Lemma all_chars_app p a b :
  all_chars p (a ++ b) = all_chars p a && all_chars p b.
Proof.
  induction a as [|x a IH]; [done|].
  rewrite sapp_cons. simpl. by rewrite IH, andb_assoc.
Qed.

Lemma lstrip_decomp s :
  ∃ a, s = a ++ Py.lstrip s ∧ all_chars Py.isspace a = true ∧
       starts_with_class Py.isspace (Py.lstrip s) = false.
Proof.
  induction s as [|x s IH]; simpl.
  - by exists "".
  - destruct (Py.isspace x) eqn:Hx.
    + destruct IH as (a & Ha & Hsp & Hst).
      exists (String x a). rewrite sapp_cons, <-Ha. simpl. by rewrite Hx.
    + exists "". simpl. by rewrite Hx.
Qed.

Lemma rstrip_decomp s :
  ∃ b, s = Py.rstrip s ++ b ∧ all_chars Py.isspace b = true ∧
       ends_with_class Py.isspace (Py.rstrip s) = false.
Proof.
  induction s as [|x s IH]; simpl.
  - by exists "".
  - destruct IH as (b & Hb & Hsp & Hend).
    destruct (Py.rstrip s) as [|y r] eqn:Hr.
    + rewrite sapp_nil_l in Hb. subst b.
      destruct (Py.isspace x) eqn:Hx.
      * exists (String x s). simpl. by rewrite Hx, Hsp.
      * exists s. simpl. by rewrite Hx.
    + exists b. rewrite sapp_cons, <-Hb. by split.
Qed.

Lemma rstrip_keeps_start s :
  starts_with_class Py.isspace s = false →
  starts_with_class Py.isspace (Py.rstrip s) = false.
Proof.
  destruct s as [|x s]; [done|]. simpl. intros Hx.
  destruct (Py.rstrip s); simpl; by rewrite ?Hx.
Qed.

(** [s.strip()] is [s] without a run of whitespace at each end, and has
    no whitespace at either end. *)
Lemma strip_decomp s :
  ∃ a b, s = a ++ Py.strip s ++ b ∧
    all_chars Py.isspace a = true ∧ all_chars Py.isspace b = true ∧
    starts_with_class Py.isspace (Py.strip s) = false ∧
    ends_with_class Py.isspace (Py.strip s) = false.
Proof.
  destruct (lstrip_decomp s) as (a & Ha & Hsa & Hst).
  destruct (rstrip_decomp (Py.lstrip s)) as (b & Hb & Hsb & Hend).
  exists a, b. unfold Py.strip. rewrite <-Hb, <-Ha.
  repeat split; try done. by apply rstrip_keeps_start.
Qed.

(** ** Location and remarks: when they succeed, and what they return *)

Lemma span_group_Some_iff l n m msg :
  is_Some (group_of (span_pattern l n m) n msg) ↔
  ∃ a b c, msg = a ++ l ++ b ++ m ++ c.
Proof.
  split.
  - unfold group_of. intros [g Hg].
    destruct (search (span_pattern l n m) msg) as [[rest gd]|] eqn:Hs; [|done].
    apply search_span_Some_inv in Hs as (a & b & c & -> & _ & _). eauto.
  - intros (a & b & c & ->). unfold group_of.
    destruct (search (span_pattern l n m) (a ++ l ++ b ++ m ++ c))
      as [[rest gd]|] eqn:Hs.
    + apply search_span_Some_inv in Hs as (a' & b' & c' & _ & -> & _).
      rewrite lookup_insert_eq. eauto.
    + exfalso. by apply (proj1 (search_span_None_iff l n m _) Hs a b c).
Qed.

Lemma span_group_occurs l n m msg g :
  group_of (span_pattern l n m) n msg = Some g →
  ∃ a c, msg = a ++ l ++ g ++ m ++ c.
Proof.
  unfold group_of.
  destruct (search (span_pattern l n m) msg) as [[rest gd]|] eqn:Hs; [|done].
  apply search_span_Some_inv in Hs as (a & b & c & -> & -> & _).
  rewrite lookup_insert_eq. intros [= <-]. eauto.
Qed.

Lemma occurs_strip_in a g c :
  occurs (Py.strip g) (a ++ g ++ c).
Proof.
  destruct (strip_decomp g) as (x & y & Hg & _).
  exists (a ++ x), (y ++ c). rewrite Hg at 1. by rewrite !sapp_assoc.
Qed.

Lemma replace_char_removes a b s :
  all_chars (λ c, negb (Py.is_char a c)) b = true →
  all_chars (λ c, negb (Py.is_char a c)) (Py.replace_char a b s) = true.
Proof.
  intros Hb. induction s as [|x s IH]; [done|]. simpl.
  destruct (ascii_dec x a) as [->|Hne].
  - by rewrite all_chars_app, Hb, IH.
  - simpl. rewrite IH. unfold Py.is_char.
    by destruct (ascii_dec a x) as [->|].
Qed.

(** ** Splitting on [", "] *)

#[local] Arguments ascii_dec : simpl never.

Lemma string_length_ind (P : string → Prop) :
  (∀ s, (∀ t, String.length t < String.length s → P t) → P s) → ∀ s, P s.
Proof.
  intros H s. remember (String.length s) as n eqn:Hn. revert s Hn.
  induction n as [n IH] using lt_wf_ind. intros s ->.
  apply H. intros t Ht. by apply (IH _ Ht).
Qed.

Lemma split_from_cons cur c s' :
  Py.split_comma_space_from cur (String c s') =
  match (if ascii_dec c "," then Py.strip_prefix " " s' else None) with
  | Some rest => cur :: Py.split_comma_space_from "" rest
  | None => Py.split_comma_space_from (cur ++ String c "") s'
  end.
Proof.
  destruct c as [[] [] [] [] [] [] [] []]; try reflexivity.
  destruct s' as [|d s'']; [reflexivity|].
  destruct d as [[] [] [] [] [] [] [] []]; reflexivity.
Qed.

Lemma split_from_nonempty cur s :
  ∃ x l, Py.split_comma_space_from cur s = x :: l.
Proof.
  revert cur. induction s as [s IH] using string_length_ind.
  intros cur. destruct s as [|c s']; [by exists cur, []|].
  rewrite split_from_cons.
  destruct (ascii_dec c ","); [|apply IH; simpl; lia].
  destruct (Py.strip_prefix " " s') as [rest|] eqn:Hr; [eauto|].
  apply IH. simpl. lia.
Qed.

(** Joining the pieces with the separator gives the text back. *)
Lemma join_split_from s :
  ∀ cur, join ", " (Py.split_comma_space_from cur s) = cur ++ s.
Proof.
  induction s as [s IH] using string_length_ind.
  intros cur. destruct s as [|c s']; [by rewrite sapp_nil_r|].
  rewrite split_from_cons.
  destruct (ascii_dec c ",") as [->|].
  - destruct (Py.strip_prefix " " s') as [rest|] eqn:Hr.
    + apply strip_prefix_Some in Hr as ->.
      change (" " ++ rest) with (String " "%char rest) in *.
      destruct (split_from_nonempty "" rest) as (x & l & Hx).
      assert (join ", " (Py.split_comma_space_from "" rest) = rest) as IHr
        by (apply IH; simpl; lia).
      rewrite Hx in *. change (join ", " (cur :: x :: l))
        with (cur ++ ", " ++ join ", " (x :: l)).
      by rewrite IHr.
    + rewrite IH by (simpl; lia). by rewrite sapp_assoc.
  - rewrite IH by (simpl; lia). by rewrite sapp_assoc.
Qed.

Lemma ends_with_class_snoc p s c :
  ends_with_class p (s ++ String c "") = p c.
Proof.
  induction s as [|x s IH]; [done|].
  rewrite sapp_cons. simpl. rewrite IH.
  by destruct s.
Qed.

Lemma contains_comma_space_snoc cur c :
  contains ", " cur = false →
  ¬ (ends_with_class (Py.is_char ",") cur = true ∧ c = " "%char) →
  contains ", " (cur ++ String c "") = false.
Proof.
  induction cur as [|x cur IH]; intros Hno Hend.
  - rewrite sapp_nil_l. simpl. by destruct (ascii_dec "," c).
  - rewrite sapp_cons. simpl in Hno |- *.
    apply orb_false_iff in Hno as [Hhere Hno].
    apply orb_false_iff. split.
    + destruct (ascii_dec "," x) as [<-|]; [|done].
      destruct cur as [|y cur].
      * rewrite sapp_nil_l. destruct (ascii_dec " " c) as [<-|]; [|done].
        destruct Hend. split; [apply is_char_refl|done].
      * rewrite sapp_cons. by destruct (ascii_dec " " y).
    + apply IH; [done|]. intros [He ->]. apply Hend. split; [|done].
      simpl. by destruct cur.
Qed.

(** No piece holds the separator. *)
Lemma split_from_pieces s :
  ∀ cur,
    contains ", " cur = false →
    (ends_with_class (Py.is_char ",") cur = true →
     starts_with_class (Py.is_char " ") s = false) →
    Forall (λ u, contains ", " u = false) (Py.split_comma_space_from cur s).
Proof.
  induction s as [s IH] using string_length_ind.
  intros cur Hcur Hend. destruct s as [|c s'].
  - by constructor.
  - rewrite split_from_cons.
    assert (contains ", " (cur ++ String c "") = false) as Hsnoc.
    { apply contains_comma_space_snoc; [done|]. intros [He ->].
      specialize (Hend He). simpl in Hend. by rewrite is_char_refl in Hend. }
    destruct (ascii_dec c ",") as [->|Hne].
    + destruct (Py.strip_prefix " " s') as [rest|] eqn:Hr.
      * apply strip_prefix_Some in Hr as ->.
        change (" " ++ rest) with (String " "%char rest) in *.
        constructor; [done|]. apply IH; [simpl; lia|done|done].
      * apply IH; [simpl; lia|done|]. intros _.
        destruct s' as [|d s'']; [done|]. simpl in Hr |- *.
        unfold Py.is_char. by destruct (ascii_dec " " d).
    + apply IH; [simpl; lia|done|].
      rewrite ends_with_class_snoc. unfold Py.is_char.
      by destruct (ascii_dec "," c) as [<-|].
Qed.

(** ** Equipment: when it succeeds, and what it returns *)

Lemma equipment_value_None_iff msg :
  equipment_value msg = None ↔
  ∀ a c b d u, Py.isspace c = true → Py.isspace d = true →
    msg ≠ a ++ "Units" ++ String c b ++ "***" ++ String d ("Premise" ++ u).
Proof.
  split.
  - intros He a c b d u Hc Hd ->.
    unfold equipment_value, group_of in He.
    rewrite equipment_pattern_units in He.
    destruct (search_complete
                (units_pattern "Units" "equipment" "***" "Premise")
                (a ++ "Units" ++ String c b ++ "***" ++ String d ("Premise" ++ u))
                a ("Units" ++ String c b ++ "***" ++ String d ("Premise" ++ u))
                eq_refl) as [[rest gd] Hs].
    + rewrite match_at_units, strip_prefix_app, sapp_cons, Hc.
      apply (star_any_complete _ b ("***" ++ String d ("Premise" ++ u)));
        [done|].
      assert (marker_ahead "***" "Premise"
                ("***" ++ String d ("Premise" ++ u)) = true) as ->; [|eauto].
      apply marker_ahead_true. eauto.
    + rewrite Hs in He.
      apply search_units_Some_inv in Hs as (?&?&?&?&?&_&_&_&->).
      by rewrite lookup_insert_eq in He.
  - intros Habsent. destruct (equipment_value msg) as [e|] eqn:He; [|done].
    apply equipment_value_Some_inv in He as (a & c & b & d & u & Hc & Hd & ->).
    by destruct (Habsent a c b d u).
Qed.

Lemma equipment_group_occurs msg g :
  group_of equipment_pattern "equipment" msg = Some g →
  ∃ a c, msg = a ++ "Units" ++ g ++ c.
Proof.
  unfold group_of. rewrite equipment_pattern_units.
  destruct (search _ msg) as [[rest gd]|] eqn:Hs; [|done].
  apply search_units_Some_inv in Hs as (a & c & b & d & u & _ & _ & -> & ->).
  rewrite lookup_insert_eq. intros [= <-].
  by exists a, ("***" ++ String d ("Premise" ++ u)).
Qed.

Lemma equipment_post_spec stripped :
  equipment_post stripped ≠ [""] ∧
  Forall (λ u, contains ", " u = false) (equipment_post stripped) ∧
  (equipment_post stripped ≠ [] →
   join ", " (equipment_post stripped) = stripped).
Proof.
  unfold equipment_post, Py.split_comma_space. simpl.
  destruct (decide (Py.split_comma_space_from "" stripped = [""])) as [E|E].
  - repeat split; done.
  - repeat split; [done| |].
    + by apply split_from_pieces.
    + intros _. by rewrite join_split_from.
Qed.

(** ** The call type: its shape, and the substitution *)

Lemma match_at_space_paren s :
  match_at space_paren_pattern s =
  plus Py.isspace s (λ t,
    match Py.strip_prefix ")" t with
    | Some t' => Some (t', (∅ : gmap string string))
    | None => None
    end).
Proof. reflexivity. Qed.

Lemma space_paren_Some_inv s rest g :
  match_at space_paren_pattern s = Some (rest, g) →
  ∃ ws, s = ws ++ ")" ++ rest ∧ ws ≠ "" ∧ all_chars Py.isspace ws = true.
Proof.
  rewrite match_at_space_paren.
  intros (ws & t & -> & Hne & Hws & Ht)%plus_Some_inv.
  destruct (Py.strip_prefix ")" t) as [t'|] eqn:Hp; [|done].
  apply strip_prefix_Some in Hp as ->. injection Ht as <- _. by exists ws.
Qed.

Lemma space_paren_complete ws rest :
  ws ≠ "" → all_chars Py.isspace ws = true →
  is_Some (match_at space_paren_pattern (ws ++ ")" ++ rest)).
Proof.
  intros Hne Hws. rewrite match_at_space_paren.
  apply plus_complete; [done|done|]. by rewrite strip_prefix_app.
Qed.

Lemma starts_with_char_inv a s :
  starts_with_class (Py.is_char a) s = true → ∃ t, s = String a t.
Proof.
  destruct s as [|x s]; [done|]. simpl. unfold Py.is_char.
  destruct (ascii_dec a x) as [<-|]; [eauto|done].
Qed.

Lemma drop_app a b : drop (String.length a) (a ++ b) = b.
Proof.
  induction a as [|x a IH]; [by destruct b|]. by rewrite sapp_cons.
Qed.

Lemma sub_from_nothing_left r repl k s :
  drop k s = "" → sub_from r repl k s = "".
Proof.
  revert k. induction s as [|c s IH]; intros [|k]; simpl; try done.
  apply IH.
Qed.

Lemma ends_with_class_cons p x s :
  ends_with_class p (String x s) =
  match s with EmptyString => p x | _ => ends_with_class p s end.
Proof. by destruct s. Qed.

Lemma ends_with_class_app p a b :
  b ≠ "" → ends_with_class p (a ++ b) = ends_with_class p b.
Proof.
  intros Hb. induction a as [|x a IH]; [done|].
  rewrite sapp_cons, ends_with_class_cons, IH.
  destruct (a ++ b) eqn:E; [|done].
  destruct a; [by rewrite sapp_nil_l in E|done].
Qed.

(** After the substitution no whitespace is left in front of a closing
    parenthesis, and a text that ended in one still does. *)
Lemma sub_space_paren_spec s :
  ∀ k,
    let out := sub_from space_paren_pattern ")" k s in
    space_before_paren out = false ∧
    (starts_with_class (Py.is_char ")") out = true →
     starts_with_class (Py.is_char ")") (drop k s) = true ∨
     is_Some (match_at space_paren_pattern (drop k s))) ∧
    (ends_with_class (Py.is_char ")") (drop k s) = true →
     ends_with_class (Py.is_char ")") out = true).
Proof.
  induction s as [|c s' IH]; intros k out; subst out.
  - destruct k; simpl; by repeat split.
  - destruct k as [|k]; [|apply (IH k)].
    change (drop 0 (String c s')) with (String c s').
    simpl sub_from.
    destruct (match_at space_paren_pattern (String c s'))
      as [[rest g]|] eqn:Hm.
    + destruct (space_paren_Some_inv _ _ _ Hm) as (ws & Hs & Hne & Hws).
      destruct ws as [|w ws]; [done|].
      rewrite sapp_cons in Hs. injection Hs as -> ->.
      replace (S (String.length (ws ++ ")" ++ rest)) - String.length rest)
        with (S (String.length (ws ++ ")")))
        by (rewrite !slength_app; simpl; lia).
      destruct (IH (String.length (ws ++ ")"))) as (Hno & _ & Hend).
      assert (drop (String.length (ws ++ ")")) (ws ++ ")" ++ rest) = rest)
        as Hdrop by (rewrite <-sapp_assoc; apply drop_app).
      rewrite Hdrop in Hend.
      set (out := sub_from space_paren_pattern ")"
                    (String.length (ws ++ ")")) (ws ++ ")" ++ rest)) in *.
      change (")" ++ out) with (String ")"%char out).
      repeat split.
      * simpl. by rewrite Hno.
      * intros _. right. eauto.
      * intros He. rewrite ends_with_class_cons.
        destruct rest as [|y rest].
        -- subst out. by rewrite sub_from_nothing_left.
        -- assert (ends_with_class (Py.is_char ")") out = true) as Ho.
           { apply Hend.
             rewrite <-(ends_with_class_app _ (String w ws ++ ")")) by done.
             by rewrite sapp_assoc. }
           rewrite Ho. by destruct out.
    + destruct (IH 0) as (Hno & Hstart & Hend).
      change (drop 0 s') with s' in *.
      set (out := sub_from space_paren_pattern ")" 0 s') in *.
      repeat split.
      * simpl. rewrite Hno, orb_false_r.
        destruct (Py.isspace c) eqn:Hc; [|done].
        destruct (starts_with_class (Py.is_char ")") out) eqn:Ho; [|done].
        exfalso. destruct (Hstart eq_refl) as [Hs|[[rest g] Hs]].
        -- apply starts_with_char_inv in Hs as [t ->].
           destruct (space_paren_complete (String c "") t) as [m Hm'];
             [done|by simpl; rewrite Hc|].
           change (String c "" ++ ")" ++ t) with (String c (String ")" t))
             in Hm'. congruence.
        -- apply space_paren_Some_inv in Hs as (ws & -> & _ & Hws).
           destruct (space_paren_complete (String c ws) rest) as [m Hm'];
             [done|by simpl; rewrite Hc|].
           rewrite sapp_cons in Hm'. congruence.
      * simpl. intros H. by left.
      * rewrite !ends_with_class_cons. destruct s' as [|y s'']; [done|].
        intros He. specialize (Hend He). rewrite Hend.
        destruct out; [done|done].
Qed.

Lemma rstrip_ends_no_space s :
  ends_with_class (λ c, negb (Py.isspace c)) s = true → Py.rstrip s = s.
Proof.
  induction s as [|x s IH]; [done|].
  rewrite ends_with_class_cons. simpl. destruct s as [|y s].
  - simpl. by intros ->%negb_true_iff.
  - intros He. by rewrite (IH He).
Qed.

Lemma call_type_group_shape msg g :
  group_of call_type_pattern "call_type" msg = Some g →
  ∃ a us ws x c,
    msg = a ++ "Call Type " ++ g ++ c ∧ g = us ++ ws ++ "(" ++ x ++ ")" ∧
    us ≠ "" ∧ all_chars Py.isupper_AZ us = true ∧
    ws ≠ "" ∧ all_chars Py.isspace ws = true.
Proof.
  unfold group_of.
  destruct (search call_type_pattern msg) as [[rest gd]|] eqn:Hs; [|done].
  apply search_Some_inv in Hs as (a & b & -> & Hm & _).
  rewrite match_at_call_type in Hm.
  destruct (Py.strip_prefix "Call Type " b) as [t|] eqn:Ht; [|done].
  apply strip_prefix_Some in Ht as ->.
  apply plus_Some_inv in Hm as (us & t1 & -> & Hne & Hus & Hm).
  apply plus_Some_inv in Hm as (ws & t2 & -> & Hnw & Hws & Hm).
  destruct (Py.strip_prefix "(" t2) as [t3|] eqn:H3; [|done].
  apply strip_prefix_Some in H3 as ->.
  apply star_Some_inv in Hm as (x & t4 & -> & _ & Hm).
  destruct (Py.strip_prefix ")" t4) as [t5|] eqn:H5; [|done].
  apply strip_prefix_Some in H5 as ->. injection Hm as <- <-.
  rewrite lookup_insert_eq. intros [= <-].
  replace (us ++ ws ++ "(" ++ x ++ ")" ++ t5)
    with ((us ++ ws ++ "(" ++ x ++ ")") ++ t5)
    by (by rewrite !sapp_assoc).
  rewrite take_consumed. by exists a, us, ws, x, t5.
Qed.

(** Stripping changes nothing in a call type group: it begins with a
    letter and ends with a parenthesis. *)
Lemma call_type_group_strip us ws x :
  us ≠ "" → all_chars Py.isupper_AZ us = true →
  Py.strip (us ++ ws ++ "(" ++ x ++ ")") = us ++ ws ++ "(" ++ x ++ ")".
Proof.
  intros Hne Hus. destruct us as [|u us]; [done|]. simpl in Hus.
  apply andb_true_iff in Hus as [Hu%isupper_not_space _].
  unfold Py.strip. rewrite sapp_cons. simpl Py.lstrip. rewrite Hu.
  apply rstrip_ends_no_space.
  rewrite <-sapp_cons.
  replace (String u us ++ ws ++ "(" ++ x ++ ")")
    with ((String u us ++ ws ++ "(" ++ x) ++ ")")
    by (by rewrite !sapp_assoc).
  by rewrite ends_with_class_app.
Qed.

Lemma call_type_value_shape msg c :
  call_type_value msg = Some c →
  starts_with_class Py.isupper_AZ c = true ∧
  ends_with_class (Py.is_char ")") c = true ∧
  space_before_paren c = false.
Proof.
  unfold call_type_value.
  destruct (group_of call_type_pattern "call_type" msg) as [g|] eqn:Hg;
    [|done].
  apply call_type_group_shape in Hg
    as (a & us & ws & x & t & _ & -> & Hne & Hus & _ & _).
  simpl. intros [= <-]. rewrite call_type_group_strip by done.
  destruct (sub_space_paren_spec (us ++ ws ++ "(" ++ x ++ ")") 0)
    as (Hno & _ & Hend).
  split; [|split; [|exact Hno]].
  - destruct us as [|u us]; [done|]. simpl in Hus.
    apply andb_true_iff in Hus as [Hu _].
    rewrite sapp_cons. unfold sub. simpl.
    change (match_at space_paren_pattern ?s)
      with (plus Py.isspace s (λ t,
              match Py.strip_prefix ")" t with
              | Some t' => Some (t', (∅ : gmap string string))
              | None => None
              end)).
    simpl. by rewrite (isupper_not_space _ Hu).
  - apply Hend. change (drop 0 ?s) with s.
    replace (us ++ ws ++ "(" ++ x ++ ")")
      with ((us ++ ws ++ "(" ++ x) ++ ")")
      by (by rewrite !sapp_assoc).
    by rewrite ends_with_class_app.
Qed.

Lemma call_type_value_None_iff msg :
  call_type_value msg = None ↔
  ∀ a us ws x c,
    us ≠ "" → all_chars Py.isupper_AZ us = true →
    ws ≠ "" → all_chars Py.isspace ws = true →
    msg ≠ a ++ "Call Type " ++ us ++ ws ++ "(" ++ x ++ ")" ++ c.
Proof.
  split.
  - intros Hv a us ws x c Hne Hus Hnw Hws ->.
    unfold call_type_value, group_of in Hv.
    destruct (search_complete call_type_pattern
                (a ++ "Call Type " ++ us ++ ws ++ "(" ++ x ++ ")" ++ c) a
                ("Call Type " ++ us ++ ws ++ "(" ++ x ++ ")" ++ c) eq_refl)
      as [[rest gd] Hs].
    + rewrite match_at_call_type, strip_prefix_app.
      apply plus_complete; [done|done|].
      apply plus_complete; [done|done|].
      rewrite strip_prefix_app.
      apply (star_any_complete _ x (")" ++ c)); [done|].
      rewrite strip_prefix_app. eauto.
    + rewrite Hs in Hv.
      destruct (named_group_set _ _ _ _ _ _ Hs) as [g Hg].
      by rewrite Hg in Hv.
  - intros Habsent. unfold call_type_value.
    destruct (group_of call_type_pattern "call_type" msg) as [g|] eqn:Hg;
      [exfalso|done].
    apply call_type_group_shape in Hg
      as (a & us & ws & x & t & -> & -> & Hne & Hus & Hnw & Hws).
    apply (Habsent a us ws x t Hne Hus Hnw Hws). by rewrite !sapp_assoc.
Qed.

(** ** What a failing extractor writes to the log *)

Lemma group_None_search l name r data :
  group_of (Lit l >> Named name r) name data = None →
  search (Lit l >> Named name r) data = None.
Proof.
  unfold group_of.
  destruct (search (Lit l >> Named name r) data) as [[rest gd]|] eqn:Hs;
    [|done].
  destruct (named_group_set _ _ _ _ _ _ Hs) as [g ->]. done.
Qed.

Lemma guarded_extractor_miss {A : Type} r name prop (f : string → A)
    data w dt :
  search r data = None → clock w (ticks w) = Some dt →
  guarded_extractor r name prop f data w =
  (Returned None,
   mk_world
     (errors_log w ++
        [ParsingError (strftime dt) prop data "Insufficient regex"])%list
     (clock w) (S (ticks w))).
Proof.
  intros Hs Hdt.
  unfold guarded_extractor, try_except, raise_ParsingError, bind,
    today_strftime.
  by rewrite Hs, Hdt.
Qed.

Lemma fmap_None_inv {A B : Type} (f : A → B) (o : option A) :
  f <$> o = None → o = None.
Proof. by destruct o. Qed.

(** ** Turns of the loop and the world *)

Lemma guarded_effect_log {A : Type} (v : option A) w w' :
  guarded_effect v w w' →
  ∃ l, errors_log w' = (errors_log w ++ l)%list ∧
       length l = if is_not_None v then 0 else 1.
Proof.
  intros [_ H]. destruct v as [a|]; simpl.
  - subst w'. exists []. by rewrite app_nil_r.
  - destruct H as [e He]. by exists [e].
Qed.

(** When the extractors of one turn are done, the log has grown by one
    entry for each required field that was missed. *)
Lemma parse_data_body_log msg dict_list w :
  ∃ w1 l,
    clock w1 = clock w ∧ errors_log w1 = (errors_log w ++ l)%list ∧
    length l = misses msg ∧
    parse_data_body msg dict_list w =
    (time <- time_custom_function msg ;;
     ret (dict_list ++ records_of msg time)%list) w1.
Proof.
  destruct (incident_number_returns msg w) as (w1 & E1 & G1).
  destruct (call_type_returns msg w1) as (w2 & E2 & G2).
  destruct (location_returns msg w2) as (w3 & E3 & G3).
  destruct (equipment_returns msg w3) as (w4 & E4 & G4).
  destruct (guarded_effect_log _ _ _ G1) as (l1 & L1 & N1).
  destruct (guarded_effect_log _ _ _ G2) as (l2 & L2 & N2).
  destruct (guarded_effect_log _ _ _ G3) as (l3 & L3 & N3).
  destruct (guarded_effect_log _ _ _ G4) as (l4 & L4 & N4).
  destruct G1 as [C1 _], G2 as [C2 _], G3 as [C3 _], G4 as [C4 _].
  set (l := (l1 ++ l2 ++ l3 ++ l4)%list).
  assert (errors_log w4 = (errors_log w ++ l)%list) as Hl.
  { subst l. by rewrite L4, L3, L2, L1, <-!app_assoc. }
  assert (length l = misses msg) as Hlen.
  { subst l. unfold misses. rewrite !length_app, N1, N2, N3, N4. lia. }
  exists w4, l. split; [congruence|]. split; [done|]. split; [done|].
  unfold parse_data_body, bind.
  rewrite E1, E2, E3.
  unfold records_of, complete, formatted_dict_of.
  destruct (location_value msg) as [[loc coords]|];
    rewrite E4, remarks_returns;
    destruct (time_custom_function msg w4) as [[t|e] w5]; try done;
    simpl;
    match goal with
    | |- context [if ?c then _ else _] => destruct c
    end; simpl; unfold ret; by rewrite ?app_nil_r.
Qed.

Lemma time_log data w o w' :
  time_custom_function data w = (o, w') → errors_log w' = errors_log w.
Proof.
  destruct (clock w (ticks w)) as [dt|] eqn:H.
  - rewrite (time_returns _ _ _ H). by intros [= <- <-].
  - rewrite (time_raises _ _ H). by intros [= <- <-].
Qed.

Lemma parse_data_loop_log data :
  ∀ dict_list w o w',
    parse_data_loop data dict_list w = (o, w') →
    clock w' = clock w ∧
    ∃ l, errors_log w' = (errors_log w ++ l)%list ∧
         (is_Some (match o with Returned r => Some r | Raised _ => None end) →
          length l = sum_list (misses <$> data)).
Proof.
  induction data as [|msg data IH]; intros dict_list w o w'; simpl.
  - intros [= <- <-]. split; [done|]. exists []. by rewrite app_nil_r.
  - unfold bind at 1.
    destruct (parse_data_body_log msg dict_list w)
      as (w1 & l1 & Hc1 & Hl1 & Hlen1 & ->).
    unfold bind at 1.
    destruct (time_custom_function msg w1) as [[t|e] w2] eqn:Ht.
    + simpl. intros (Hc & l & Hl & Hlen)%IH.
      rewrite (time_clock _ _ _ _ Ht), Hc1 in Hc.
      rewrite (time_log _ _ _ _ Ht), Hl1, <-app_assoc in Hl.
      split; [done|]. exists (l1 ++ l)%list. split; [done|].
      intros Ho. rewrite length_app, Hlen1, (Hlen Ho). done.
    + intros [= <- <-]. rewrite (time_clock _ _ _ _ Ht), Hc1.
      split; [done|]. exists l1.
      split; [by rewrite (time_log _ _ _ _ Ht)|]. by intros [? ?].
Qed.

(** ** Batches *)

Lemma parse_data_body_acc msg dict_list w :
  parse_data_body msg dict_list w =
  match parse_data_body msg [] w with
  | (Returned r, w') => (Returned (dict_list ++ r)%list, w')
  | (Raised e, w') => (Raised e, w')
  end.
Proof.
  unfold parse_data_body, bind.
  destruct (incident_number_custom_function msg w) as [[n|e] w1]; [|done].
  destruct (call_type_custom_function msg w1) as [[c|e] w2]; [|done].
  destruct (location_custom_function msg w2) as [[[[l co]|]|e] w3];
    [| |done];
    (destruct (equipment_custom_function msg w3) as [[eq|e] w4]; [|done]);
    (destruct (remarks_custom_function msg w4) as [[r|e] w5]; [|done]);
    (destruct (time_custom_function msg w5) as [[t|e] w6]; [|done]);
    match goal with
    | |- context [if ?b then _ else _] => destruct b
    end; unfold ret; by rewrite ?app_nil_r.
Qed.

Lemma parse_data_loop_acc data :
  ∀ dict_list w,
    parse_data_loop data dict_list w =
    match parse_data_loop data [] w with
    | (Returned r, w') => (Returned (dict_list ++ r)%list, w')
    | (Raised e, w') => (Raised e, w')
    end.
Proof.
  induction data as [|msg data IH]; intros dict_list w; simpl.
  - unfold ret. by rewrite app_nil_r.
  - unfold bind. rewrite (parse_data_body_acc msg dict_list).
    destruct (parse_data_body msg [] w) as [[r|e] w1]; [|done].
    rewrite (IH (dict_list ++ r)%list), (IH ([] ++ r)%list).
    destruct (parse_data_loop data [] w1) as [[r'|e] w2]; [|done].
    by rewrite app_assoc.
Qed.

Lemma parse_data_loop_app data1 data2 dict_list w :
  parse_data_loop (data1 ++ data2) dict_list w =
  (dict_list' <- parse_data_loop data1 dict_list ;;
   parse_data_loop data2 dict_list') w.
Proof.
  revert dict_list w. induction data1 as [|msg data1 IH];
    intros dict_list w; simpl; [done|].
  unfold bind in *.
  destruct (parse_data_body msg dict_list w) as [[r|e] w1]; [|done].
  apply IH.
Qed.

(** The records are those of the messages that pass the final test, one
    for each and in the order of the input. *)
Lemma records_filter data :
  ∀ times, length times = length data →
    Forall2 (λ rec msg, complete msg = true ∧
                        ∃ time, rec = formatted_dict_of msg time)
      (concat (zip_with records_of data times))
      (filter (λ msg, complete msg = true) data).
Proof.
  induction data as [|msg data IH]; intros [|t times] Hlen;
    simpl in *; try done.
  rewrite filter_cons. unfold records_of at 1.
  destruct (decide (complete msg = true)) as [Hc|Hc].
  - rewrite Hc. simpl. constructor; [eauto|]. apply IH. lia.
  - apply not_true_is_false in Hc. rewrite Hc. simpl. apply IH. lia.
Qed.

(** * Further results *)

Lemma returns_value {A : Type} (m : Python A) v v' :
  returns m v → returns m v' → v' = v.
Proof. intros H H'. by apply (returns_inj m). Qed.

(** X1.  The number extractor returns [None] exactly for the messages in
    which no ["Incident No "] is directly followed by a decimal digit. *)
Theorem X1_number_fails_iff msg :
  returns (incident_number_custom_function msg) None ↔
  ∀ a d b, Py.isdigit d = true → msg ≠ a ++ "Incident No " ++ String d b.
Proof.
  rewrite <-number_value_None_iff. split.
  - intros H. by apply (returns_inj _ _ _ (returns_number msg) H).
  - intros <-. apply returns_number.
Qed.

Lemma X1_witness :
  returns (incident_number_custom_function "Incident No. 7 at Loc") None.
Proof.
  apply (proj2 (X1_number_fails_iff "Incident No. 7 at Loc")).
  apply (proj1 (number_value_None_iff _)). reflexivity.
Defined.



(** X3.  A call type that the extractor returns begins with a capital
    letter, ends with a closing parenthesis, and has no whitespace left
    in front of any closing parenthesis. *)
Theorem X3_call_type_shape msg c :
  returns (call_type_custom_function msg) (Some c) →
  starts_with_class Py.isupper_AZ c = true ∧
  ends_with_class (Py.is_char ")") c = true ∧
  space_before_paren c = false.
Proof.
  intros H. apply (call_type_value_shape msg).
  by apply (returns_value _ _ _ H (returns_call_type msg)).
Qed.

Lemma X3_witness :
  starts_with_class Py.isupper_AZ "AB (MEDICAL) x (y)" = true ∧
  ends_with_class (Py.is_char ")") "AB (MEDICAL) x (y)" = true ∧
  space_before_paren "AB (MEDICAL) x (y)" = false.
Proof.
  apply (X3_call_type_shape
           ("Call Type AB (MEDICAL  " ++ nl ++ " ) x (y  )")).
  apply (returns_call_type ("Call Type AB (MEDICAL  " ++ nl ++ " ) x (y  )")).
Defined.

(** X4.  The call type extractor returns [None] exactly for the messages
    that nowhere read ["Call Type "], one or more capital letters, one or
    more whitespace characters, an opening parenthesis and, somewhere
    behind it, a closing one. *)
Theorem X4_call_type_fails_iff msg :
  returns (call_type_custom_function msg) None ↔
  ∀ a us ws x c,
    us ≠ "" → all_chars Py.isupper_AZ us = true →
    ws ≠ "" → all_chars Py.isspace ws = true →
    msg ≠ a ++ "Call Type " ++ us ++ ws ++ "(" ++ x ++ ")" ++ c.
Proof.
  rewrite <-call_type_value_None_iff. split.
  - intros H. by apply (returns_inj _ _ _ (returns_call_type msg) H).
  - intros <-. apply returns_call_type.
Qed.

Lemma X4_witness :
  returns (call_type_custom_function "Call Type ab (MEDICAL)") None.
Proof.
  apply (proj2 (X4_call_type_fails_iff "Call Type ab (MEDICAL)")).
  apply (proj1 (call_type_value_None_iff _)). reflexivity.
Defined.

(** X5.  The location extractor returns an address exactly for the
    messages that read ["Loc "] with a ["City"] somewhere behind it. *)
Theorem X5_location_succeeds_iff msg :
  (∃ l co, returns (location_custom_function msg) (Some (l, co))) ↔
  ∃ a b c, msg = a ++ "Loc " ++ b ++ "City" ++ c.
Proof.
  rewrite <-(span_group_Some_iff "Loc " "location" "City").
  rewrite <-location_pattern_span. split.
  - intros (l & co & H).
    pose proof (returns_value _ _ _ H (returns_location msg)) as Hl.
    unfold location_value in Hl.
    destruct (group_of location_pattern "location" msg); [eauto|done].
  - intros [g Hg]. eexists _, _.
    pose proof (returns_location msg) as H. unfold location_value in H.
    rewrite Hg in H. exact H.
Qed.

Lemma X5_witness :
  ∃ l co, returns (location_custom_function "at Loc City") (Some (l, co)).
Proof.
  apply (proj2 (X5_location_succeeds_iff "at Loc City")).
  exists "at ", "", "". reflexivity.
Defined.

(** X6.  The address that the location extractor returns has no
    whitespace at either end, and stands in the message between a
    ["Loc "] and a ["City"], with nothing but whitespace around it
    there. *)
Theorem X6_location_address_is_trimmed msg l co :
  returns (location_custom_function msg) (Some (l, co)) →
  starts_with_class Py.isspace l = false ∧
  ends_with_class Py.isspace l = false ∧
  ∃ a x y c,
    msg = a ++ "Loc " ++ x ++ l ++ y ++ "City" ++ c ∧
    all_chars Py.isspace x = true ∧ all_chars Py.isspace y = true.
Proof.
  intros H. pose proof (returns_value _ _ _ H (returns_location msg)) as Hl.
  unfold location_value in Hl.
  destruct (group_of location_pattern "location" msg) as [g|] eqn:Hg;
    [|done].
  simpl in Hl. injection Hl as <- _.
  rewrite location_pattern_span in Hg.
  apply span_group_occurs in Hg as (a & c & ->).
  destruct (strip_decomp g) as (x & y & Hdec & Hx & Hy & Hst & Hend).
  split; [done|]. split; [done|].
  exists a, x, y, c. split; [|done].
  rewrite Hdec at 1. by rewrite !sapp_assoc.
Qed.

Lemma X6_witness :
  starts_with_class Py.isspace "12 Main St" = false ∧
  ends_with_class Py.isspace "12 Main St" = false ∧
  ∃ a x y c,
    "Loc   12 Main St  City"
      = a ++ "Loc " ++ x ++ "12 Main St" ++ y ++ "City" ++ c ∧
    all_chars Py.isspace x = true ∧ all_chars Py.isspace y = true.
Proof.
  apply (X6_location_address_is_trimmed "Loc   12 Main St  City"
           "12 Main St" "39.6029,-77.0015").
  apply (returns_location "Loc   12 Main St  City").
Defined.

(** X7.  The remarks extractor returns a text exactly for the messages
    that read ["Remarks "] with a ["Prty"] somewhere behind it. *)
Theorem X7_remarks_succeeds_iff msg :
  (∃ r, returns (remarks_custom_function msg) (Some r)) ↔
  ∃ a b c, msg = a ++ "Remarks " ++ b ++ "Prty" ++ c.
Proof.
  rewrite <-(span_group_Some_iff "Remarks " "remarks" "Prty").
  rewrite <-remarks_pattern_span. split.
  - intros (r & H).
    pose proof (returns_value _ _ _ H (returns_remarks msg)) as Hr.
    unfold remarks_value in Hr.
    destruct (group_of remarks_pattern "remarks" msg); [eauto|done].
  - intros [g Hg]. eexists.
    pose proof (returns_remarks msg) as H. unfold remarks_value in H.
    rewrite Hg in H. exact H.
Qed.

Lemma X7_witness :
  ∃ r, returns (remarks_custom_function "Remarks Prty") (Some r).
Proof.
  apply (proj2 (X7_remarks_succeeds_iff "Remarks Prty")).
  exists "", "", "". reflexivity.
Defined.

(** X8.  The text that the remarks extractor returns holds no line
    feed. *)
Theorem X8_remarks_on_one_line msg r :
  returns (remarks_custom_function msg) (Some r) →
  all_chars (λ c, negb (Py.is_char "010" c)) r = true.
Proof.
  intros H. pose proof (returns_value _ _ _ H (returns_remarks msg)) as Hr.
  unfold remarks_value in Hr.
  destruct (group_of remarks_pattern "remarks" msg) as [g|]; [|done].
  simpl in Hr. injection Hr as <-. by apply replace_char_removes.
Qed.

Lemma X8_witness :
  all_chars (λ c, negb (Py.is_char "010" c)) "fell from ladder" = true.
Proof.
  apply (X8_remarks_on_one_line
           ("Remarks  fell" ++ nl ++ "from ladder Prty 2")).
  apply (returns_remarks ("Remarks  fell" ++ nl ++ "from ladder Prty 2")).
Defined.

(** X9.  The equipment extractor returns [None] exactly for the messages
    that nowhere read ["Units"], a whitespace character and, somewhere
    behind it, ["***"], a whitespace character and ["Premise"]. *)
Theorem X9_equipment_fails_iff msg :
  returns (equipment_custom_function msg) None ↔
  ∀ a c b d u, Py.isspace c = true → Py.isspace d = true →
    msg ≠ a ++ "Units" ++ String c b ++ "***" ++ String d ("Premise" ++ u).
Proof.
  rewrite <-equipment_value_None_iff. split.
  - intros H. by apply (returns_inj _ _ _ (returns_equipment msg) H).
  - intros <-. apply returns_equipment.
Qed.

Lemma X9_witness :
  returns (equipment_custom_function "Units: E1 *** Premise") None.
Proof.
  apply (proj2 (X9_equipment_fails_iff "Units: E1 *** Premise")).
  apply (proj1 (equipment_value_None_iff _)). reflexivity.
Defined.

(** X10.  The list that the equipment extractor returns is never the
    list of one empty string, and none of its units holds the separator
    [", "].  When it is not empty, joining its units with [", "] gives
    the text that stands in the message behind ["Units"], with nothing
    but whitespace around it up to the match's end. *)
Theorem X10_equipment_units msg e :
  returns (equipment_custom_function msg) (Some e) →
  e ≠ [""] ∧
  Forall (λ u, contains ", " u = false) e ∧
  (e ≠ [] →
   ∃ a x y c,
     msg = a ++ "Units" ++ x ++ join ", " e ++ y ++ c ∧
     all_chars Py.isspace x = true ∧ all_chars Py.isspace y = true ∧
     starts_with_class Py.isspace (join ", " e) = false ∧
     ends_with_class Py.isspace (join ", " e) = false).
Proof.
  intros H. pose proof (returns_value _ _ _ H (returns_equipment msg)) as He.
  unfold equipment_value in He.
  destruct (group_of equipment_pattern "equipment" msg) as [g|] eqn:Hg;
    [|done].
  simpl in He. injection He as <-.
  destruct (equipment_post_spec (Py.strip g)) as (Hne & Hall & Hjoin).
  split; [done|]. split; [done|]. intros Hnil.
  rewrite (Hjoin Hnil).
  apply equipment_group_occurs in Hg as (a & c & ->).
  destruct (strip_decomp g) as (x & y & Hdec & Hx & Hy & Hst & Hend).
  exists a, x, y, c. repeat split; try done.
  rewrite Hdec at 1. by rewrite !sapp_assoc.
Qed.

Lemma X10_witness :
  ["E10"; "A12,B7"] ≠ [""] ∧
  Forall (λ u, contains ", " u = false) ["E10"; "A12,B7"] ∧
  (["E10"; "A12,B7"] ≠ [] →
   ∃ a x y c,
     "Units  E10, A12,B7 *** Premise"
       = a ++ "Units" ++ x ++ join ", " ["E10"; "A12,B7"] ++ y ++ c ∧
     all_chars Py.isspace x = true ∧ all_chars Py.isspace y = true ∧
     starts_with_class Py.isspace (join ", " ["E10"; "A12,B7"]) = false ∧
     ends_with_class Py.isspace (join ", " ["E10"; "A12,B7"]) = false).
Proof.
  apply (X10_equipment_units "Units  E10, A12,B7 *** Premise").
  apply (returns_equipment "Units  E10, A12,B7 *** Premise").
Defined.

(** X11.  When one of the four guarded extractors returns [None] on a
    message and the clock can be read, the entry it adds to the error
    log is a [ParsingError] with the time of the failure, the name of
    the field, the message itself and the reason "Insufficient regex";
    the clock has been read once and nothing else has changed. *)
Theorem X11_failure_log_entry data w dt :
  clock w (ticks w) = Some dt →
  let logged prop :=
    mk_world
      (errors_log w ++
         [ParsingError (strftime dt) prop data "Insufficient regex"])%list
      (clock w) (S (ticks w)) in
  (returns (call_type_custom_function data) None →
   call_type_custom_function data w = (Returned None, logged "call_type")) ∧
  (returns (incident_number_custom_function data) None →
   incident_number_custom_function data w
     = (Returned None, logged "number")) ∧
  (returns (location_custom_function data) None →
   location_custom_function data w = (Returned None, logged "location")) ∧
  (returns (equipment_custom_function data) None →
   equipment_custom_function data w = (Returned None, logged "equipment")).
Proof.
  intros Hdt logged. subst logged. repeat split; intros H.
  - pose proof (returns_value _ _ _ H (returns_call_type data)) as Hv.
    apply fmap_None_inv, group_None_search in Hv.
    rewrite call_type_guarded. by apply guarded_extractor_miss.
  - pose proof (returns_value _ _ _ H (returns_number data)) as Hv.
    apply fmap_None_inv, group_None_search in Hv.
    rewrite incident_number_guarded. by apply guarded_extractor_miss.
  - pose proof (returns_value _ _ _ H (returns_location data)) as Hv.
    apply fmap_None_inv, group_None_search in Hv.
    rewrite location_guarded. by apply guarded_extractor_miss.
  - pose proof (returns_value _ _ _ H (returns_equipment data)) as Hv.
    apply fmap_None_inv, group_None_search in Hv.
    rewrite equipment_guarded. by apply guarded_extractor_miss.
Qed.

Lemma X11_witness :
  location_custom_function "Loc nowhere" sample_world =
  (Returned None,
   mk_world
     [ParsingError "2019-07-04 13:05:09" "location" "Loc nowhere"
        "Insufficient regex"]
     (clock sample_world) 1).
Proof.
  apply (proj1 (proj2 (proj2
           (X11_failure_log_entry "Loc nowhere" sample_world sample_datetime
              eq_refl)))).
  apply (returns_location "Loc nowhere").
Defined.

(** X12.  Batches compose: running [parse_data] on one collection and
    then, in the world it leaves, on a second one gives the records of
    the two collections put end to end, one after the other. *)
Theorem X12_parse_data_app data1 data2 w recs1 w1 recs2 w2 :
  parse_data data1 w = (Returned recs1, w1) →
  parse_data data2 w1 = (Returned recs2, w2) →
  parse_data (data1 ++ data2) w = (Returned (recs1 ++ recs2)%list, w2).
Proof.
  unfold parse_data. intros H1 H2.
  rewrite parse_data_loop_app. unfold bind. rewrite H1.
  by rewrite parse_data_loop_acc, H2.
Qed.

Lemma X12_witness :
  parse_data ([sample_message] ++ [message_with_no_units]) sample_world =
  (Returned ([sample_record "2019-07-04 13:05:09"] ++
             [full_record "12345" "AB (MEDICAL)" "123 Main St"
                "39.6029,-77.0015" [] "None" "2019-07-04 13:05:09"])%list,
   tick (tick sample_world)).
Proof.
  apply (X12_parse_data_app [sample_message] [message_with_no_units]
           sample_world _ (tick sample_world)); reflexivity.
Defined.

(** X13.  [parse_data] returns one record for each message that passes
    the final test of the loop, in the order of the input, and none for
    the others; each record holds what the extractors returned for its
    message, with ["None"] for missing remarks. *)
Theorem X13_one_record_per_accepted_message data w recs w' :
  parse_data data w = (Returned recs, w') →
  Forall2 (λ rec msg, ∃ n c l co e r time,
             returns (incident_number_custom_function msg) (Some n) ∧
             returns (call_type_custom_function msg) (Some c) ∧
             returns (location_custom_function msg) (Some (l, co)) ∧
             returns (equipment_custom_function msg) (Some e) ∧
             returns (remarks_custom_function msg) r ∧
             rec = full_record n c l co e (default "None" r) time)
    recs (filter (λ msg, complete msg = true) data).
Proof.
  intros (times & Hlen & ->)%parse_data_returned.
  eapply Forall2_impl; [by apply records_filter|].
  intros rec msg [Hc [t ->]].
  destruct (complete_full msg t Hc)
    as (n & c & l & co & e & Hn & Hct & Hl & _ & He & ->).
  exists n, c, l, co, e, (remarks_value msg), t.
  rewrite <-Hn, <-Hct, <-Hl, <-He.
  repeat split; auto with extractors.
Qed.

Lemma X13_witness :
  Forall2 (λ rec msg, ∃ n c l co e r time,
             returns (incident_number_custom_function msg) (Some n) ∧
             returns (call_type_custom_function msg) (Some c) ∧
             returns (location_custom_function msg) (Some (l, co)) ∧
             returns (equipment_custom_function msg) (Some e) ∧
             returns (remarks_custom_function msg) r ∧
             rec = full_record n c l co e (default "None" r) time)
    [full_record "12345" "AB (MEDICAL)" "123 Main St"
       "39.6029,-77.0015" [] "None" "2019-07-04 13:05:09";
     sample_record "2019-07-04 13:05:09"]
    (filter (λ msg, complete msg = true)
       [message_with_no_units; message_with_empty_location;
        sample_message]).
Proof.
  apply (X13_one_record_per_accepted_message
           [message_with_no_units; message_with_empty_location;
            sample_message]
           sample_world _ (tick (tick (tick sample_world)))).
  reflexivity.
Defined.

(** X14.  A run of [parse_data] that returns leaves the clock as it was
    and only appends to the error log: one entry for each required
    field that an extractor missed, over all the messages; the remarks
    and time extractors log nothing. *)
Theorem X14_log_grows_by_the_misses data w recs w' :
  parse_data data w = (Returned recs, w') →
  clock w' = clock w ∧
  ∃ l, errors_log w' = (errors_log w ++ l)%list ∧
       length l = sum_list (misses <$> data).
Proof.
  intros (Hc & l & Hl & Hlen)%parse_data_loop_log.
  split; [done|]. exists l. split; [done|]. apply Hlen. eauto.
Qed.

Lemma X14_witness :
  clock
    (mk_world
       [ParsingError "2019-07-04 13:05:09" "number" "Loc here City"
          "Insufficient regex";
        ParsingError "2019-07-04 13:05:09" "call_type" "Loc here City"
          "Insufficient regex";
        ParsingError "2019-07-04 13:05:09" "equipment" "Loc here City"
          "Insufficient regex"]
       (clock sample_world) 5)
  = clock sample_world ∧
  ∃ l,
    [ParsingError "2019-07-04 13:05:09" "number" "Loc here City"
       "Insufficient regex";
     ParsingError "2019-07-04 13:05:09" "call_type" "Loc here City"
       "Insufficient regex";
     ParsingError "2019-07-04 13:05:09" "equipment" "Loc here City"
       "Insufficient regex"]
    = (errors_log sample_world ++ l)%list ∧
    length l = sum_list (misses <$> [sample_message; "Loc here City"]).
Proof.
  apply (X14_log_grows_by_the_misses [sample_message; "Loc here City"]
           sample_world [sample_record "2019-07-04 13:05:09"]).
  reflexivity.
Defined.

(** X15.  A message without an incident number whose call type,
    location and equipment are extracted yields no record, and exactly
    one entry is added to the error log: the [ParsingError] of the
    field [number]. *)
Theorem X15_missing_number_logged_once msg c l co e w dt dt' :
  (∀ a d b, Py.isdigit d = true → msg ≠ a ++ "Incident No " ++ String d b) →
  returns (call_type_custom_function msg) (Some c) →
  returns (location_custom_function msg) (Some (l, co)) →
  returns (equipment_custom_function msg) (Some e) →
  clock w (ticks w) = Some dt → clock w (S (ticks w)) = Some dt' →
  parse_data [msg] w =
  (Returned [],
   mk_world
     (errors_log w ++
        [ParsingError (strftime dt) "number" msg "Insufficient regex"])%list
     (clock w) (S (S (ticks w)))).
Proof.
  intros Habsent Hc Hl He Hdt Hdt'.
  apply number_value_None_iff in Habsent.
  pose proof (returns_value _ _ _ Hc (returns_call_type msg)) as Hcv.
  pose proof (returns_value _ _ _ Hl (returns_location msg)) as Hlv.
  pose proof (returns_value _ _ _ He (returns_equipment msg)) as Hev.
  set (w1 := mk_world
     (errors_log w ++
        [ParsingError (strftime dt) "number" msg "Insufficient regex"])%list
     (clock w) (S (ticks w))).
  assert (incident_number_custom_function msg w = (Returned None, w1)) as E1.
  { rewrite incident_number_guarded. apply guarded_extractor_miss; [|done].
    apply (group_None_search "Incident No " "number").
    by apply (fmap_None_inv Py.strip). }
  destruct (call_type_returns msg w1) as (w2 & E2 & _ & G2).
  destruct (location_returns msg w2) as (w3 & E3 & _ & G3).
  destruct (equipment_returns msg w3) as (w4 & E4 & _ & G4).
  rewrite Hcv in G2, E2. rewrite Hlv in G3, E3. rewrite Hev in G4, E4.
  subst w4 w3 w2.
  unfold parse_data. simpl. unfold bind at 1.
  unfold parse_data_body, bind.
  rewrite E1, E2, E3, E4, remarks_returns.
  by rewrite (time_returns msg w1 dt') by done.
Qed.

Lemma X15_witness :
  parse_data [message_without_number] sample_world =
  (Returned [],
   mk_world
     [ParsingError "2019-07-04 13:05:09" "number" message_without_number
        "Insufficient regex"]
     (clock sample_world) 2).
Proof.
  apply (X15_missing_number_logged_once message_without_number
           "AB (MEDICAL)" "123 Main St" "39.6029,-77.0015" ["E10"]
           sample_world sample_datetime sample_datetime).
  - apply (proj1 (number_value_None_iff _)). reflexivity.
  - apply (returns_call_type message_without_number).
  - apply (returns_location message_without_number).
  - apply (returns_equipment message_without_number).
  - reflexivity.
  - reflexivity.
Defined.

(** X16.  [parse_data] has no handler around the time extractor: when
    the clock cannot be read for a message whose required fields are
    there, the whole run raises the exception of the time extractor, no
    list is returned, the messages behind it are not looked at and the
    error log is left as it was. *)
Theorem X16_time_failure_aborts_the_run msg rest w :
  required_fields_present msg → clock w (ticks w) = None →
  parse_data (msg :: rest) w =
  (Raised match clock w (S (ticks w)) with
          | Some dt => ParsingError (strftime dt) "time" msg "Not specified"
          | None => ClockError
          end,
   tick (tick w)).
Proof.
  intros Hc%required_fields_complete Hclock.
  unfold parse_data. simpl. unfold bind at 1.
  destruct (parse_data_body_unfold msg [] w) as (w1 & _ & Hw & ->).
  rewrite (Hw Hc). unfold bind. by rewrite (time_raises _ _ Hclock).
Qed.

Lemma X16_witness :
  parse_data [sample_message; message_with_no_units] failing_clock_world =
  (Raised (ParsingError "2019-07-04 13:05:09" "time" sample_message
             "Not specified"),
   tick (tick failing_clock_world)).
Proof.
  apply (X16_time_failure_aborts_the_run sample_message
           [message_with_no_units] failing_clock_world).
  - apply (proj2 (required_fields_complete sample_message)). reflexivity.
  - reflexivity.
Defined.

(** ** Where the greedy matches end *)





(** X18.  The remarks are read from the first ["Remarks "] of the
    message up to its last ["Prty"]; the extractor returns that text
    trimmed, with every line feed replaced by a space, and leaves the
    world as it is. *)
Theorem X18_remarks_span pre text post w :
  (∀ a c, pre ++ "Remarks " ++ text ++ "Prty" ++ post
            = a ++ "Remarks " ++ c →
          String.length pre ≤ String.length a) →
  (∀ a c, text ++ "Prty" ++ post = a ++ "Prty" ++ c →
          String.length a ≤ String.length text) →
  remarks_custom_function (pre ++ "Remarks " ++ text ++ "Prty" ++ post) w
  = (Returned (Some (Py.replace_char "010" " " (Py.strip text))), w).
Proof.
  intros Hfirst Hlast. rewrite remarks_returns.
  unfold remarks_value, group_of.
  rewrite remarks_pattern_span, search_span_greedy by done.
  by rewrite lookup_insert_eq.
Qed.

Lemma X18_witness :
  remarks_custom_function
    ("Prty 3 Remarks  see" ++ nl ++ "Prty list Prty 1") sample_world
  = (Returned (Some "see Prty list"), sample_world).
Proof.
  apply (X18_remarks_span "Prty 3 " (" see" ++ nl ++ "Prty list ") " 1"
           sample_world).
  - intros a c Heq.
    eapply (first_occurrence "Remarks" " " "Prty 3 " _ a c);
      [reflexivity|exact Heq].
  - intros a c Heq.
    eapply (last_occurrence "P" "rty" _ " 1" a c); [reflexivity|exact Heq].
Defined.

(** X19.  The units are read behind the first ["Units"] that a
    whitespace character follows, up to the last ["***"], whitespace
    character, ["Premise"] of the message; the extractor returns that
    text trimmed and split at every [", "] (the empty list when nothing
    is left after trimming), and leaves the world as it is. *)
Theorem X19_equipment_span pre c units d post w :
  Py.isspace c = true → Py.isspace d = true →
  (∀ a c' t, Py.isspace c' = true →
     pre ++ "Units" ++ String c units ++ "***" ++ String d ("Premise" ++ post)
       = a ++ "Units" ++ String c' t →
     String.length pre ≤ String.length a) →
  (∀ a d' t, Py.isspace d' = true →
     units ++ "***" ++ String d ("Premise" ++ post)
       = a ++ "***" ++ String d' ("Premise" ++ t) →
     String.length a ≤ String.length units) →
  equipment_custom_function
    (pre ++ "Units" ++ String c units ++ "***" ++ String d ("Premise" ++ post))
    w
  = (Returned
       (Some (if decide (Py.split_comma_space (Py.strip units) = [""])
              then [] else Py.split_comma_space (Py.strip units))),
     w).
Proof.
  intros Hc Hd Hfirst Hlast.
  set (msg := pre ++ "Units" ++ String c units ++ "***"
                ++ String d ("Premise" ++ post)).
  destruct (equipment_returns msg w) as (w' & E & _ & Heff).
  assert (equipment_value msg = Some (equipment_post (Py.strip units))) as Hv.
  { unfold equipment_value, group_of. subst msg.
    rewrite equipment_pattern_units, search_units_greedy by done.
    rewrite lookup_insert_eq. simpl. do 2 f_equal.
    unfold Py.strip. simpl. by rewrite Hc. }
  rewrite Hv in E, Heff. by rewrite E, Heff.
Qed.

Lemma X19_witness :
  equipment_custom_function
    ("Units: none. Units  E10, A12 *** Premise") sample_world
  = (Returned (Some ["E10"; "A12"]), sample_world).
Proof.
  apply (X19_equipment_span "Units: none. " " "%char " E10, A12 " " "%char ""
           sample_world).
  - reflexivity.
  - reflexivity.
  - intros a c' t Hc' Heq.
    destruct (Nat.le_gt_cases (String.length "Units: none. ")
                (String.length a)) as [Hle|Hlt]; [exact Hle|exfalso].
    revert Hc' Heq.
    do 13 (destruct a as [|? a]; [intros Hc' [= <-]; discriminate Hc'
                                 |try (intros _ [=]; fail)]).
    all: simpl in Hlt; lia.
  - intros a d' t _ Heq.
    eapply (last_occurrence "*" "**" _ (String " " "Premise")
              a (String d' ("Premise" ++ t))); [reflexivity|exact Heq].
Defined.
